(* ===== verification/_CoqProject ===== *)
-Q . S2P
Prelude.v
Js.v
Config.v
Sdk.v
Stub.v
Helper.v
Scenarios.v
Lifecycle.v
