(* ===== verification/Prelude.v ===== *)
(** * A verification development of codechain-santa's submission helper

    The program is one TypeScript file, [src/src/util.ts].  It defines a
    class [Helper] that wraps a CodeChain SDK client, plus two configuration
    functions.  This development models every line of that file as Rocq
    definitions and proves what the helper promises.

    ** The program and how its parts interact

    - Configuration ([getConfig], [haveConfig], lines 121-131).  These read
      settings from the process-wide [config] library and reject a [null] or
      [undefined] value.  The constructor (lines 17-23) reads [rpc_url] and
      then [network_id], and builds the SDK from them.
    - The submission helper (lines 25-118).  It has five operations.  Each
      one is a straight-line sequence of calls into the SDK:
      [createP2PKHAddress], [sendTransaction], [sendAssetTransaction],
      [mintAsset] and [signTransactionInput].  [mintAsset] calls
      [createP2PKHAddress] and [sendAssetTransaction].
    - The SDK and the chain it talks to are not code of this repository.
      They are consumed through an interface.  Every SDK call the helper
      makes is a request; a handler answers it and may raise an exception.

    ** Files

    - [Prelude]: the result type (value or thrown exception) with its
      monad instance, a counting function on call traces, the shared Ltac
      and the hint database [helper].
    - [Js]: the JavaScript semantics the code relies on.  This covers JS
      values, loose [== null], truthiness, [||] on a number, and
      destructuring defaults (they apply to [undefined] only and are
      evaluated lazily).  It also holds the exception type.
    - [Config]: the [config] library as an interface (class
      [ConfigSource], laws [ConfigLaws]).  [getConfig] and [haveConfig] are
      modelled against it.  A gmap-backed instance follows node-config.
    - [Sdk]: the SDK data (transactions, signed transactions, assets,
      addresses) and the request type [request], with one constructor per
      SDK method the helper calls and its response type.  It defines the
      program monad [prog]: a finite tree of requests with continuations.
      [run] executes a program against any handler and returns the
      result, the final handler state and the trace of requests.
    - [Helper]: the class.  The record [Helper] is its two fields.
      [Helper_new] is the constructor, and each method is a [prog].  The
      theorems here hold for every handler: which calls happen, in which
      order, with which arguments, and how errors propagate.
    - [Stub]: a reference chain client.  It holds account sequences, a key
      store that derives fresh keys, broadcast transactions, settlement
      times, minted assets and a heap of transfer transactions.  The SDK's
      result polling is a loop bounded by the timeout.  It is no code of
      [src/]: it plays the stub the spec's scenarios assume.
    - [Scenarios]: the spec's §8 scenarios, run on the stub for every
      chain state meeting their preconditions.
    - [Lifecycle]: the life cycle Built -> Signed -> Broadcast ->
      Confirmed of spec §4.1, as a labelled step relation.  A failure in
      any phase is the exception of the run.

    ** What the theorems show

    - Protocols ([Helper], C1-C3).  For every client, each method issues
      exactly the SDK requests of the code in the code's order.  Defaults
      that [await] run only when the property is [undefined].  The run
      stops at the first rejection.  [Sdk.protocol] is proved
      compositionally through bind.
    - Functional behaviour per branch ([Helper], C8-C15).  This covers
      which arguments are signed and broadcast, the defaults (fee 10,
      faucet secret, awaitResult true, metadata empty, shard 0), the
      300 * 1000 ms timeout, and the faucet-sequence lookup.
    - Errors ([Helper], C16-C17).  Every exception is an SDK rejection
      passed through unmodified and not retried, except mintAsset's own
      "Failed to mint asset" ([Sdk.run_Err_source]).
    - Scenarios ([Scenarios], C4-C6 and C12; [Helper], C18).  These are a
      mint with a fresh recipient, a timeout that is not a hang, a lost
      asset, a no-await submission that broadcasts once, and an input
      signature that changes one slot only.
    - Configuration ([Config], [Helper], C19-C24).  These cover null and
      undefined rejection, the order of reads, and the agreement of
      [haveConfig] with [getConfig] under node-config's laws.
    - The life cycle ([Lifecycle], C7 and C25).  A refinement: every run
      of [sendAssetTransaction] traces a path of the machine, and its
      result agrees with the phase reached.  Invariants by rule induction
      count the steps of any path, and with the refinement they show that
      no run, on any client, signs or broadcasts twice.

    ** Bounds and fuel

    The helper has no loops, so [run] is structural on the program tree
    and needs no fuel.  The only loop is the SDK's polling of settlement
    results, modelled in [Stub.poll].  With fuel [timeout / interval] it
    checks at [0, interval, ..., fuel * interval], all within the
    timeout.  [Stub.poll_observes] proves it sees every settlement due by
    the last check, and [Stub.poll_timeout] proves it gives up with the
    timeout error otherwise.

    ** Not modelled

    JS numbers are modelled as integers: sequence numbers and fees are
    integers, and NaN is not modelled.  A [fee] given as a string or [U64]
    is identified with its numeric value.  The cryptography, the RPC
    transport and the SDK's encodings are external, so they are reached
    only through the request interface.  Concurrency between helper calls
    is not modelled: the spec says each operation is a sequential chain
    of suspension points, and the helper imposes no ordering across calls.

    ** Plan for extension

    - A client-contract interface (a class of laws on handlers), so that
      the mint scenario is proved against any lawful client and not only
      the stub.
    - Interleavings of several helper calls on one client, to study the
      resubmission hazard of spec §5: a reused sequence is rejected.
    - Scenarios for [sendTransaction] on the stub, including the null
      sequence of an unknown account.
*)
From stdpp Require Import base list.
From Stdlib Require Import ZArith.

(** ** Results: a value or a thrown exception *)

Inductive result (E A : Type) : Type :=
| Ok (a : A)
| Err (e : E).
Arguments Ok {E A} a.
Arguments Err {E A} e.

#[export] Instance result_ret {E} : MRet (result E) := fun _ a => Ok a.
#[export] Instance result_bind {E} : MBind (result E) :=
  fun _ _ f r => match r with Ok a => f a | Err e => Err e end.

Definition is_ok {E A} (r : result E A) : bool :=
  match r with Ok _ => true | Err _ => false end.

Declare Scope helper_scope.
Delimit Scope helper_scope with helper.
Open Scope helper_scope.

(** [throw e] is a JavaScript [throw]; [r ?! e] turns an absent value into
    an exception. *)
Notation "'throw' e" := (Err e) (at level 10, e at level 9) : helper_scope.
Notation "o ?! e" := (match o with Some a => Ok a | None => Err e end)
  (at level 40) : helper_scope.

Lemma result_bind_Ok {E A B} (r : result E A) (f : A -> result E B) b :
  (r ≫= f) = Ok b <-> exists a, r = Ok a /\ f a = Ok b.
Proof. destruct r; simpl; split; [eauto | by intros (? & [= ->] & ?) | done | by intros (? & ? & ?)]. Qed.

Lemma result_bind_Err {E A B} (r : result E A) (f : A -> result E B) e :
  r = Err e -> (r ≫= f) = Err e.
Proof. by intros ->. Qed.

(** ** Counting the calls of a trace *)

Definition count_where {A} (p : A -> bool) (l : list A) : nat :=
  length (List.filter p l).

Lemma count_where_app {A} (p : A -> bool) l1 l2 :
  count_where p (l1 ++ l2) = count_where p l1 + count_where p l2.
Proof. unfold count_where. by rewrite List.filter_app, length_app. Qed.

Lemma count_where_cons {A} (p : A -> bool) x l :
  count_where p (x :: l) = (if p x then 1 else 0) + count_where p l.
Proof. unfold count_where. simpl. by destruct (p x). Qed.

Lemma count_where_nil {A} (p : A -> bool) : count_where p [] = 0.
Proof. done. Qed.

Lemma count_where_zero {A} (p : A -> bool) l :
  count_where p l = 0 <-> Forall (fun x => p x = false) l.
Proof.
  induction l as [|x l IH]; [split; auto|].
  rewrite count_where_cons, Forall_cons, <- IH. destruct (p x); split; intuition (lia || done).
Qed.

(** ** Automation shared by the component files *)

Create HintDb helper discriminated.
Create Rewrite HintDb helper_rw.
#[export] Hint Rewrite @count_where_app @count_where_cons @count_where_nil : helper_rw.

(** Case analysis on a [match] over a result or an option in the goal,
    keeping the equation. *)
Ltac case_result :=
  match goal with
  | |- context [match ?r with Ok _ => _ | Err _ => _ end] =>
      let E := fresh "Hr" in destruct r eqn:E
  | |- context [match ?r with Some _ => _ | None => _ end] =>
      let E := fresh "Ho" in destruct r eqn:E
  end.
