(* ===== verification/Js.v ===== *)
(** * The JavaScript semantics [src/src/util.ts] relies on

    This file holds the parts of JavaScript that the helper's behaviour
    depends on.
    - Values as [config.get] returns them.
    - The loose test [c == null] (lines 123 and 130), which holds for
      [null] and [undefined].
    - Truthiness and the [||] of line 59.
    - Destructuring defaults [{x = d} = o]: the default applies when the
      property is [undefined] and only then, and an [await] in it runs
      only in that case.
    - Exceptions ([throw new Error(msg)]) as values. *)
From stdpp Require Import base list strings.
From Stdlib Require Import ZArith.
From S2P Require Import Prelude.
Open Scope helper_scope.

(** ** Values and exceptions *)

(** A JavaScript value as read from the configuration.  Numbers are
    integers here (see the header). *)
Inductive jsval : Type :=
| JUndefined
| JNull
| JBool (b : bool)
| JNum (n : Z)
| JStr (s : string).

#[export] Instance jsval_eq_dec : EqDecision jsval.
Proof. solve_decision. Defined.

(** [throw new Error(message)]. *)
Inductive exn : Type :=
| JsError (message : string).

#[export] Instance exn_eq_dec : EqDecision exn.
Proof. solve_decision. Defined.

(** [v == null]: loose equality with [null] holds exactly for [null] and
    [undefined]. *)
Definition loose_eq_null (v : jsval) : bool :=
  match v with
  | JUndefined | JNull => true
  | _ => false
  end.

(** [!!v]. *)
Definition truthy (v : jsval) : bool :=
  match v with
  | JUndefined | JNull => false
  | JBool b => b
  | JNum n => negb (Z.eqb n 0)
  | JStr s => negb (String.eqb s EmptyString)
  end.

(** [n || d] where [n] is a number that may be [null] ([None]): the right
    operand is taken when [n] is falsy, that is [null] or [0]. *)
Definition or_number (n : option Z) (d : Z) : Z :=
  match n with
  | Some k => if Z.eqb k 0 then d else k
  | None => d
  end.

(** A pure destructuring default [{x = d} = o]: an optional property is
    [Some v] when present and [None] when [undefined]. *)
Definition with_default {A} (o : option A) (d : A) : A :=
  match o with Some a => a | None => d end.

(** ** Lemmas *)

Lemma loose_eq_null_false v :
  loose_eq_null v = false <-> v <> JUndefined /\ v <> JNull.
Proof. destruct v; simpl; intuition congruence. Qed.

Lemma or_number_pos n d : (0 < n)%Z -> or_number (Some n) d = n.
Proof. intros. simpl. destruct (Z.eqb_spec n 0); [lia | done]. Qed.

Lemma or_number_falsy n d : n = None \/ n = Some 0%Z -> or_number n d = d.
Proof. by intros [-> | ->]. Qed.

Lemma with_default_Some {A} (a d : A) : with_default (Some a) d = a.
Proof. done. Qed.

Lemma with_default_None {A} (d : A) : with_default None d = d.
Proof. done. Qed.

#[export] Hint Rewrite @with_default_Some @with_default_None : helper_rw.

(** [n || 0] on a sequence number is the number, with [null] read as 0. *)
Lemma or_number_zero n : or_number n 0 = with_default n 0%Z.
Proof. destruct n as [k|]; simpl; [destruct (Z.eqb_spec k 0); subst|]; done. Qed.
