(* ===== verification/Config.v ===== *)
(** * Configuration: [getConfig] and [haveConfig] (src/src/util.ts:121-131)

    The helper reads its settings through the [config] library (node-config,
    imported at line 7).  That library is not code of this repository, so
    it appears here as an interface.  Class [ConfigSource] gives its two
    functions [has] and [get].  Class [ConfigLaws] gives what node-config
    guarantees about them: [get] returns the stored value, which may be
    [null], when [has] holds, and throws otherwise.  The theorems about
    [getConfig] and [haveConfig] are proved against the interface.  The
    gmap-backed [MapConfig] instance discharges the laws, and the witnesses
    use it. *)
From stdpp Require Import base list strings gmap.
From Stdlib Require Import ZArith.
From S2P Require Import Prelude Js.
Open Scope helper_scope.

(** ** The configuration library, as an interface *)

Class ConfigSource : Type := {
  config_has : string -> bool;
  config_get : string -> result exn jsval
}.

Class ConfigLaws `{ConfigSource} : Prop := {
  config_get_has : forall f, config_has f = true ->
    exists v, config_get f = Ok v /\ v <> JUndefined;
  config_get_not_has : forall f, config_has f = false ->
    exists e, config_get f = Err e
}.

(** ** The code *)

Section Code.
  Context `{ConfigSource}.

  (** [getConfig<T>(field)] (lines 121-127): [config.get] may itself throw;
      a [null] or [undefined] value is rejected with
      [`${field} is not specified`]. *)
Definition getConfig (field : string) : result exn jsval :=
    c ← config_get field;
    if loose_eq_null c
    then throw (JsError (String.append field " is not specified"))
    else Ok c.

  (** [haveConfig(field)] (lines 129-131):
      [!!config.has(field) && config.get(field) != null].  The [&&] is
      short-circuiting, so [get] is only consulted when [has] holds. *)
Definition haveConfig (field : string) : result exn bool :=
    if config_has field
    then c ← config_get field; Ok (negb (loose_eq_null c))
    else Ok false.
End Code.

(** ** A node-config instance: settings in a map *)

(** node-config's [get] throws on a property that is not defined
    ([undefined] or absent) and returns [null] as it is; [has] holds for
    every defined property. *)
Definition map_has (m : gmap string jsval) (f : string) : bool :=
  match m !! f with
  | Some JUndefined | None => false
  | Some _ => true
  end.

Definition map_get (m : gmap string jsval) (f : string) : result exn jsval :=
  match m !! f with
  | Some JUndefined | None =>
      throw (JsError (String.append "Configuration property is not defined: " f))
  | Some v => Ok v
  end.

Definition MapConfig (m : gmap string jsval) : ConfigSource :=
  {| config_has := map_has m; config_get := map_get m |}.

#[export] Instance MapConfig_laws m : @ConfigLaws (MapConfig m).
Proof.
  split; intros f; simpl; unfold map_has, map_get;
    destruct (m !! f) as [[]|]; intros Hf; try discriminate; eauto.
Qed.

(** ** Properties *)

Section Properties.
  Context `{ConfigSource}.

Lemma getConfig_Ok_iff f v :
    getConfig f = Ok v <-> config_get f = Ok v /\ loose_eq_null v = false.
  Proof.
    unfold getConfig. destruct (config_get f) as [c|e]; simpl; [|split; [done | intuition discriminate]].
    destruct (loose_eq_null c) eqn:E; split.
    - discriminate.
    - intros [Hv Hn]. injection Hv as <-. congruence.
    - intros Hv. injection Hv as <-. done.
    - intros [Hv _]. by injection Hv as <-.
  Qed.

  (** C22: getConfig rejects null and undefined.  When the configuration
      holds [null] or [undefined] for [field], [getConfig field] throws
      the error [`${field} is not specified`] naming that field. *)
Theorem getConfig_rejects_nullish f v :
    config_get f = Ok v -> v = JNull \/ v = JUndefined ->
    getConfig f = Err (JsError (String.append f " is not specified")).
  Proof. intros Hg Hv. unfold getConfig. rewrite Hg. simpl. by destruct Hv as [-> | ->]. Qed.

  (** C23: getConfig returns exactly the configured value when that value is
      neither null nor undefined; in particular an empty string or a number
      is accepted unchecked. *)
Theorem getConfig_returns_value f v :
    config_get f = Ok v -> v <> JNull -> v <> JUndefined -> getConfig f = Ok v.
  Proof. intros Hg ? ?. apply getConfig_Ok_iff. split; [done|]. by apply loose_eq_null_false. Qed.

  (** An exception of the configuration library propagates unchanged
      through getConfig. *)
Theorem getConfig_propagates f e :
    config_get f = Err e -> getConfig f = Err e.
  Proof. intros Hg. unfold getConfig. by rewrite Hg. Qed.

  Context `{!ConfigLaws}.

Lemma haveConfig_true_iff f :
    haveConfig f = Ok true <-> exists v, getConfig f = Ok v.
  Proof.
    unfold haveConfig. destruct (config_has f) eqn:Hh.
    - destruct (config_get_has f Hh) as (c & Hc & _). rewrite Hc. simpl.
      setoid_rewrite getConfig_Ok_iff. rewrite Hc.
      split; [destruct (loose_eq_null c) eqn:E; [discriminate | eauto]|].
      intros (v & Hv & Hn). injection Hv as <-. by rewrite Hn.
    - destruct (config_get_not_has f Hh) as (e & He). unfold getConfig. rewrite He.
      split; [discriminate | intros (? & ?); discriminate].
  Qed.

  (** C24: haveConfig never throws, and it holds exactly when getConfig
      succeeds on the same field. *)
Theorem haveConfig_iff_getConfig f :
    haveConfig f = Ok true <-> exists v, getConfig f = Ok v.
  Proof. apply haveConfig_true_iff. Qed.

Lemma haveConfig_total f : exists b, haveConfig f = Ok b.
  Proof.
    unfold haveConfig. destruct (config_has f) eqn:Hh; [|eauto].
    destruct (config_get_has f Hh) as (c & -> & _). simpl. eauto.
  Qed.
End Properties.

(** ** Witnesses *)

Definition null_config : gmap string jsval := {[ "rpc_url" := JNull ]}.
Definition url_config : gmap string jsval := {[ "rpc_url" := JStr "http://localhost:8080" ]}.

Lemma getConfig_rejects_nullish_witness :
  @config_get (MapConfig null_config) "rpc_url" = Ok JNull /\
  (JNull = JNull \/ JNull = JUndefined) /\
  @getConfig (MapConfig null_config) "rpc_url" = Err (JsError "rpc_url is not specified").
Proof.
  split; [reflexivity|]. split; [by left|].
  exact (@getConfig_rejects_nullish (MapConfig null_config) "rpc_url" JNull eq_refl (or_introl eq_refl)).
Defined.

Lemma getConfig_returns_value_witness :
  @config_get (MapConfig url_config) "rpc_url" = Ok (JStr "http://localhost:8080") /\
  JStr "http://localhost:8080" <> JNull /\ JStr "http://localhost:8080" <> JUndefined /\
  @getConfig (MapConfig url_config) "rpc_url" = Ok (JStr "http://localhost:8080").
Proof.
  split; [reflexivity|]. split; [discriminate|]. split; [discriminate|].
  apply (@getConfig_returns_value (MapConfig url_config)); [reflexivity | discriminate | discriminate].
Defined.

Lemma haveConfig_iff_getConfig_witness :
  @ConfigLaws (MapConfig null_config) /\
  (@haveConfig (MapConfig null_config) "rpc_url" = Ok true <->
   exists v, @getConfig (MapConfig null_config) "rpc_url" = Ok v).
Proof.
  split; [apply MapConfig_laws|].
  exact (@haveConfig_iff_getConfig (MapConfig null_config) (MapConfig_laws null_config) "rpc_url").
Defined.
