(* ===== verification/Sdk.v ===== *)
(** * The SDK boundary and the program monad

    The helper reaches the chain only through the CodeChain SDK
    ([codechain-sdk], imported at lines 1-6 of [src/src/util.ts]).  This
    file gives the SDK data the helper handles, as records and variants.
    It also gives one [request] constructor per SDK method that
    [util.ts] calls, with the type of its answer ([response]).

    A method of the helper is a [prog]: a finite tree whose nodes are
    requests.  Each node's continuation takes the answer.  Every [await]
    of the code is a node.  So are the synchronous SDK calls
    ([createP2PKH], [tx.sign], [tx.tracker]), since each may throw.
    [run] executes a program against a handler, an arbitrary client with
    its own state.  It returns the result, the final state and the trace
    of requests in the order they were issued.  A request the handler
    rejects ends the run with that exception, which is how JavaScript
    propagates a rejected [await] with no [try]. *)
From stdpp Require Import base list strings.
From Stdlib Require Import ZArith.
From S2P Require Import Prelude Js.
Open Scope helper_scope.

(** ** SDK data *)

(** Platform and asset addresses, trackers and transaction hashes are
    strings in their textual form. *)
Abbreviation address := string.
Abbreviation H256 := string.

(** [new SDK({server, networkId})]: the SDK instance remembers both
    settings.  They are JS values, because [getConfig<string>] does not
    check the type of what the configuration holds. *)
Record SdkConfig : Type := {
  server : jsval;
  networkId : jsval
}.

(** The key store handle: opaque to the helper. *)
Inductive KeyStore : Type := MkKeyStore (ks_id : nat).

(** The object [sdk.key.createP2PKH({keyStore})] returns. *)
Record P2PKH : Type := {
  p2pkh_keyStore : KeyStore;
  p2pkh_networkId : jsval
}.

(** The [scheme] argument of [createMintAssetTransaction]. *)
Record AssetScheme : Type := {
  shardId : Z;
  metadata : string;
  supply : Z
}.

(** Transactions.  [MintAsset] is what [createMintAssetTransaction]
    builds.  Every other kind (payments, transfers, ...) is passed through
    opaquely. *)
Inductive Transaction : Type :=
| MintAsset (scheme : AssetScheme) (recipient : address)
| OtherTransaction (kind : string) (body : string).

(** Who signed a transaction: the key store with an account
    ([sdk.key.signTransaction]), or a raw secret ([tx.sign]). *)
Inductive SigningMethod : Type :=
| KeyStoreAccount (ks : KeyStore) (account : address)
| RawSecret (secret : string).

Record SignedTransaction : Type := {
  signed_tx : Transaction;
  signed_fee : Z;
  signed_seq : option Z;
  signed_by : SigningMethod
}.

(** [Asset] as [getAsset] returns it. *)
Record Asset : Type := {
  asset_tracker : H256;
  asset_index : Z;
  asset_shard : Z;
  asset_metadata : string;
  asset_quantity : Z;
  asset_recipient : address
}.

(** A [TransferAsset] object lives in the caller's heap; the helper gets a
    reference to it, and signing an input mutates that object. *)
Abbreviation TxRef := nat.

#[export] Instance SdkConfig_eq_dec : EqDecision SdkConfig.
Proof. solve_decision. Defined.
#[export] Instance KeyStore_eq_dec : EqDecision KeyStore.
Proof. solve_decision. Defined.
#[export] Instance P2PKH_eq_dec : EqDecision P2PKH.
Proof. solve_decision. Defined.
#[export] Instance AssetScheme_eq_dec : EqDecision AssetScheme.
Proof. solve_decision. Defined.
#[export] Instance Transaction_eq_dec : EqDecision Transaction.
Proof. solve_decision. Defined.
#[export] Instance SigningMethod_eq_dec : EqDecision SigningMethod.
Proof. solve_decision. Defined.
#[export] Instance SignedTransaction_eq_dec : EqDecision SignedTransaction.
Proof. solve_decision. Defined.

(** ** Requests: the SDK methods [util.ts] calls *)

Inductive request : Type :=
(** [this.sdk.key.createP2PKH({ keyStore })] (line 26) *)
| CreateP2PKH (sdk : SdkConfig) (keyStore : KeyStore)
(** [p2pkh.createAddress()] (line 27) *)
| CreateAddress (p2pkh : P2PKH)
(** [this.sdk.rpc.chain.getSeq(account)] (lines 39, 59) *)
| GetSeq (sdk : SdkConfig) (account : address)
(** [this.sdk.key.signTransaction(tx, {keyStore, account, fee, seq})] *)
| SignTransaction (sdk : SdkConfig) (tx : Transaction) (keyStore : KeyStore)
    (account : address) (fee : Z) (seq : option Z)
(** [tx.sign({secret, fee, seq})] (line 64) *)
| Sign (tx : Transaction) (secret : string) (fee : Z) (seq : Z)
(** [this.sdk.rpc.chain.sendSignedTransaction(signed)] (lines 46, 69) *)
| SendSignedTransaction (sdk : SdkConfig) (signed : SignedTransaction)
(** [tx.tracker()] (lines 72, 106) *)
| Tracker (tx : Transaction)
(** [this.sdk.rpc.chain.getTransactionResultsByTracker(tracker, {timeout})] *)
| GetTransactionResultsByTracker (sdk : SdkConfig) (tracker : H256) (timeout : Z)
(** [this.sdk.core.createMintAssetTransaction({scheme, recipient})] *)
| CreateMintAssetTransaction (sdk : SdkConfig) (scheme : AssetScheme)
    (recipient : address)
(** [this.sdk.rpc.chain.getAsset(tracker, index, shardId)] (line 106) *)
| GetAsset (sdk : SdkConfig) (tracker : H256) (index : Z) (shard : Z)
(** [this.sdk.key.signTransactionInput(tx, index, {keyStore})] (line 117) *)
| SignTransactionInput (sdk : SdkConfig) (tx : TxRef) (index : Z)
    (keyStore : KeyStore).

#[export] Instance request_eq_dec : EqDecision request.
Proof. solve_decision. Defined.

(** The type of the value each request resolves to. *)
Definition response (q : request) : Type :=
  match q with
  | CreateP2PKH _ _ => P2PKH
  | CreateAddress _ => address
  | GetSeq _ _ => option Z
  | SignTransaction _ _ _ _ _ _ => SignedTransaction
  | Sign _ _ _ _ => SignedTransaction
  | SendSignedTransaction _ _ => H256
  | Tracker _ => H256
  | GetTransactionResultsByTracker _ _ _ => list bool
  | CreateMintAssetTransaction _ _ _ => Transaction
  | GetAsset _ _ _ _ => option Asset
  | SignTransactionInput _ _ _ _ => unit
  end.

(** ** Programs *)

Inductive prog (A : Type) : Type :=
| Ret (a : A)
| Raise (e : exn)
| Call (q : request) (k : response q -> prog A).
Arguments Ret {A} a.
Arguments Raise {A} e.
Arguments Call {A} q k.

Fixpoint prog_bind {A B} (p : prog A) (f : A -> prog B) : prog B :=
  match p with
  | Ret a => f a
  | Raise e => Raise e
  | Call q k => Call q (fun r => prog_bind (k r) f)
  end.

#[export] Instance prog_ret : MRet prog := fun _ a => Ret a.
#[export] Instance prog_mbind : MBind prog := fun _ _ f p => prog_bind p f.

(** Issue one request and wait for its answer. *)
Definition call (q : request) : prog (response q) := Call q Ret.

(** [{x = await d} = o]: a destructuring default whose default awaits.
    The default program runs only when the property is [undefined]. *)
Definition await_default {A} (o : option A) (d : prog A) : prog A :=
  match o with Some a => mret a | None => d end.

(** Lift a thrown-or-returned value of synchronous code into a program. *)
Definition of_result {A} (r : result exn A) : prog A :=
  match r with Ok a => Ret a | Err e => Raise e end.

(** A handler answers a request in its state; it may reject it. *)
Definition handler (S : Type) : Type :=
  forall q : request, S -> result exn (response q) * S.

(** The client the helper talks to: a state type and a handler. *)
Class ChainClient (S : Type) := client_handle : handler S.

Record outcome (S A : Type) : Type := Outcome {
  out_result : result exn A;
  out_state : S;
  out_trace : list request
}.
Arguments Outcome {S A} _ _ _.
Arguments out_result {S A} _.
Arguments out_state {S A} _.
Arguments out_trace {S A} _.

(** Execute a program.  The recursion is structural: a continuation
    applied to an answer is a subterm of the tree. *)
Fixpoint run {S A} (h : handler S) (p : prog A) (s : S) : outcome S A :=
  match p with
  | Ret a => Outcome (Ok a) s []
  | Raise e => Outcome (Err e) s []
  | Call q k =>
      match h q s with
      | (Ok v, s1) =>
          let o := run h (k v) s1 in
          Outcome (out_result o) (out_state o) (q :: out_trace o)
      | (Err e, s1) => Outcome (Err e) s1 [q]
      end
  end.

(** ** Lemmas on [run] *)

Section Run.
  Context {S : Type} (h : handler S).

Lemma run_ret {A} (a : A) s : run h (mret a) s = Outcome (Ok a) s [].
  Proof. done. Qed.

Lemma run_call_ok {A} q (k : response q -> prog A) s v s1 :
    h q s = (Ok v, s1) ->
    run h (Call q k) s =
      Outcome (out_result (run h (k v) s1)) (out_state (run h (k v) s1))
              (q :: out_trace (run h (k v) s1)).
  Proof. intros E. simpl. by rewrite E. Qed.

Lemma run_call_err {A} q (k : response q -> prog A) s e s1 :
    h q s = (Err e, s1) -> run h (Call q k) s = Outcome (Err e) s1 [q].
  Proof. intros E. simpl. by rewrite E. Qed.

  (** Running a bound program runs the first part, then the rest from
      where it stopped; the traces are concatenated. *)
Lemma run_bind {A B} (p : prog A) (f : A -> prog B) s :
    run h (p ≫= f) s =
      match out_result (run h p s) with
      | Ok a =>
          let o := run h (f a) (out_state (run h p s)) in
          Outcome (out_result o) (out_state o) (out_trace (run h p s) ++ out_trace o)
      | Err e => Outcome (Err e) (out_state (run h p s)) (out_trace (run h p s))
      end.
  Proof.
    revert s. induction p as [a|e|q k IH]; intros s; simpl.
    - by destruct (run h (f a) s).
    - done.
    - destruct (h q s) as [[v|e] s1]; simpl; [|done].
      change (prog_bind (k v) f) with (k v ≫= f). rewrite IH.
      by destruct (out_result (run h (k v) s1)).
  Qed.

  (** The trace of a run that fails at its last request is all requests
      up to it; a run never issues a request after an exception. *)
Lemma run_raise {A} e s : run h (Raise (A:=A) e) s = Outcome (Err e) s [].
  Proof. done. Qed.
End Run.

(** Step through one request of a run: split on the handler's answer. *)
Ltac run_step :=
  match goal with
  | |- context [run ?h (Call ?q ?k) ?s] =>
      let r := fresh "r" in let s' := fresh "s" in let E := fresh "Eh" in
      destruct (h q s) as [r s'] eqn:E; destruct r;
      [rewrite (run_call_ok h q k s _ _ E) | rewrite (run_call_err h q k s _ _ E)]
  end.

(** ** Protocols: the sequence of request kinds a program issues *)

(** The SDK method a request calls, without its arguments. *)
Inductive kind : Type :=
| KCreateP2PKH | KCreateAddress | KGetSeq | KSignTransaction | KSign | KSend
| KTracker | KGetResults | KCreateMint | KGetAsset | KSignInput.

#[export] Instance kind_eq_dec : EqDecision kind.
Proof. solve_decision. Defined.

Definition kind_of (q : request) : kind :=
  match q with
  | CreateP2PKH _ _ => KCreateP2PKH
  | CreateAddress _ => KCreateAddress
  | GetSeq _ _ => KGetSeq
  | SignTransaction _ _ _ _ _ _ => KSignTransaction
  | Sign _ _ _ _ => KSign
  | SendSignedTransaction _ _ => KSend
  | Tracker _ => KTracker
  | GetTransactionResultsByTracker _ _ _ => KGetResults
  | CreateMintAssetTransaction _ _ _ => KCreateMint
  | GetAsset _ _ _ _ => KGetAsset
  | SignTransactionInput _ _ _ _ => KSignInput
  end.

(** [protocol p ks]: whatever the client answers, [p] issues a prefix of
    the requests [ks], in that order, and it issues all of them when it
    returns normally.  A run stops at the first rejected request. *)
Definition protocol {A} (p : prog A) (ks : list kind) : Prop :=
  forall S (h : handler S) s,
    map kind_of (out_trace (run h p s)) `prefix_of` ks /\
    (is_ok (out_result (run h p s)) = true -> map kind_of (out_trace (run h p s)) = ks).

Lemma protocol_ret {A} (a : A) : protocol (mret a) [].
Proof. intros S h s. simpl. split; [apply prefix_nil | done]. Qed.

Lemma protocol_raise {A} e ks : protocol (Raise (A:=A) e) ks.
Proof. intros S h s. simpl. split; [apply prefix_nil | done]. Qed.

Lemma protocol_call q k : kind_of q = k -> protocol (call q) [k].
Proof. intros <- S h s. simpl. destruct (h q s) as [[v|e] s1]; simpl; split; done. Qed.

Lemma protocol_bind {A B} (p : prog A) (f : A -> prog B) ks1 ks2 :
  protocol p ks1 -> (forall a, protocol (f a) ks2) -> protocol (p ≫= f) (ks1 ++ ks2).
Proof.
  intros Hp Hf S h s. rewrite run_bind.
  destruct (Hp S h s) as [Hpre Hok].
  destruct (out_result (run h p s)) as [a|e] eqn:Er; simpl.
  - rewrite map_app, (Hok eq_refl). destruct (Hf a S h (out_state (run h p s))) as [Hpre' Hok'].
    split; [by apply prefix_app|]. intros Hr. by rewrite Hok'.
  - split; [by apply prefix_app_r | done].
Qed.

Lemma protocol_await_default {A} (o : option A) d ks :
  protocol d ks -> protocol (await_default o d) (match o with Some _ => [] | None => ks end).
Proof. destruct o; [intros; apply protocol_ret | done]. Qed.

Lemma protocol_await_none {A} (d : prog A) ks :
  protocol d ks -> protocol (await_default None d) ks.
Proof. done. Qed.

Lemma protocol_case_option {A B} (o : option A) (f : A -> prog B) (g : prog B) ks :
  (forall a, protocol (f a) ks) -> protocol g ks ->
  protocol (match o with Some a => f a | None => g end) ks.
Proof. destruct o; auto. Qed.

#[export] Hint Resolve protocol_ret protocol_raise : helper.
#[export] Hint Extern 1 (protocol (call _) _) => (refine (protocol_call _ _ eq_refl)) : helper.

(** Prove [protocol p ks] for a straight-line [p]: split each bind,
    giving the list the right shape first. *)
Ltac solve_protocol :=
  repeat match goal with
  | |- protocol (mret _) _ => apply protocol_ret
  | |- protocol (Raise _) _ => apply protocol_raise
  | |- protocol (call _) _ => refine (protocol_call _ _ eq_refl)
  | |- protocol (await_default None _) _ => apply protocol_await_none
  | |- protocol (await_default (Some _) _) _ => apply protocol_ret
  | |- protocol (match _ with Some _ => _ | None => _ end) _ =>
      apply protocol_case_option; [intro|]
  | |- protocol (call ?q ≫= _) _ =>
      apply (protocol_bind _ _ [kind_of q]); [refine (protocol_call _ _ eq_refl) | intro]
  | |- protocol (_ ≫= _) _ => eapply protocol_bind; [solve [eauto with helper] | intro]
  end.

(** ** Where an exception comes from *)

(** [raises p e]: the program itself throws [e] on some answers of the
    client. *)
Fixpoint raises {A} (p : prog A) (e : exn) : Prop :=
  match p with
  | Ret _ => False
  | Raise e' => e' = e
  | Call q k => exists v, raises (k v) e
  end.

Lemma raises_ret {A} (a : A) e : ~ raises (mret a) e.
Proof. by intros []. Qed.

Lemma raises_call q e : ~ raises (call q) e.
Proof. by intros [? []]. Qed.

Lemma raises_bind {A B} (p : prog A) (f : A -> prog B) e :
  raises (p ≫= f) e -> raises p e \/ exists a, raises (f a) e.
Proof.
  induction p as [a|e'|q k IH]; simpl; [eauto | auto |].
  intros [v Hv]. change (prog_bind (k v) f) with (k v ≫= f) in Hv.
  destruct (IH v Hv) as [Hr | Hr]; [left; eauto | by right].
Qed.

(** An exception of a run is either thrown by the program itself or the
    rejection of the last request, passed through unchanged. *)
Lemma run_Err_source {S A} (h : handler S) (p : prog A) s e :
  out_result (run h p s) = Err e ->
  raises p e \/
  exists q s1 s2, last (out_trace (run h p s)) = Some q /\ h q s1 = (Err e, s2).
Proof.
  revert s. induction p as [a|e'|q k IH]; intros s; simpl; [discriminate | intros [= ->]; left; done |].
  destruct (h q s) as [[v|e'] s1] eqn:Eh; simpl.
  - intros Hr. destruct (IH v s1 Hr) as [Hk | (q' & s2 & s3 & Hl & Hq)].
    + left. eauto.
    + right. exists q', s2, s3. split; [|done].
      destruct (out_trace (run h (k v) s1)); [discriminate | done].
  - intros [= ->]. right. eauto.
Qed.

(** Prove [~ raises p e] for a straight-line [p] with no [throw]. *)
Ltac no_raise :=
  repeat match goal with
  | H : raises (mret _) _ |- _ => by apply raises_ret in H
  | H : raises (call _) _ |- _ => by apply raises_call in H
  | H : raises (await_default (Some _) _) _ |- _ => by apply raises_ret in H
  | H : raises (await_default None _) _ |- _ => simpl in H
  | H : raises (_ ≫= _) _ |- _ =>
      apply raises_bind in H as [H | [? H]]
  | H : raises (if ?b then _ else _) _ |- _ => destruct b
  | H : exists _, _ |- _ => destruct H as [? H]
  | H : False |- _ => done
  end.
