(* ===== verification/Stub.v ===== *)
(** * A reference chain client for the helper's scenarios

    This file holds a concrete client: the SDK together with a chain and a
    key store, as one state and one handler.  It plays the part of the
    stub the spec's testable properties assume (spec §8).  It is not code
    of this repository, so no line of [src/] is mapped to it.  Its only
    role is to give the helper's requests an answer that a chain could
    give.
    - The key store holds the accounts it can sign for, and a counter of
      derived asset keys; [createAddress] derives a fresh address from it.
    - [getSeq] reads the account's sequence number, which is [null] for
      an unknown account.
    - A broadcast is accepted only with the account's current sequence.
      It then bumps that sequence and schedules the settlement of the
      transaction [latency] ms later.  A mint also records its asset at
      output 0.
    - [getTransactionResultsByTracker] polls every [poll_interval] ms,
      for [timeout / poll_interval] intervals at most.  It then gives up
      with a timeout error, so the loop always terminates.
    - [getAsset] sees an asset once its mint has settled.
    - [signTransactionInput] signs one input of a transfer transaction in
      the caller's heap.  It rejects an index out of range, as the SDK's
      [signTransactionInput] does. *)
From stdpp Require Import base list strings gmap pretty.
From Stdlib Require Import ZArith.
From S2P Require Import Prelude Js Sdk.
Open Scope helper_scope.

Module Stub.

(** ** State *)

Inductive Signature : Type :=
| KeyStoreSignature (ks : KeyStore) (tx : TxRef) (index : Z).

Record TransferInput : Type := { prevOut : string; unlock : option Signature }.
Record TransferTx : Type := { inputs : list TransferInput }.

Record Chain : Type := {
  seqs : gmap string Z;                   (** account -> sequence *)
  secrets : gmap string string;            (** raw secret -> account *)
  ks_accounts : gset string;               (** accounts of the key store *)
  key_counter : nat;                       (** asset keys derived so far *)
  clock : Z;                               (** now, in ms *)
  latency : Z;                             (** settlement delay, in ms *)
  settled : gmap string (Z * list bool);   (** tracker -> (time, flags) *)
  assets : gmap (string * Z) Asset;        (** (tracker, output) -> asset *)
  pool : list SignedTransaction;           (** accepted broadcasts *)
  transfers : gmap nat TransferTx          (** the caller's heap *)
}.

Definition with_key_counter (n : nat) (c : Chain) : Chain :=
  {| seqs := seqs c; secrets := secrets c; ks_accounts := ks_accounts c;
     key_counter := n; clock := clock c; latency := latency c;
     settled := settled c; assets := assets c; pool := pool c;
     transfers := transfers c |}.

Definition with_clock (t : Z) (c : Chain) : Chain :=
  {| seqs := seqs c; secrets := secrets c; ks_accounts := ks_accounts c;
     key_counter := key_counter c; clock := t; latency := latency c;
     settled := settled c; assets := assets c; pool := pool c;
     transfers := transfers c |}.

Definition with_transfers (m : gmap nat TransferTx) (c : Chain) : Chain :=
  {| seqs := seqs c; secrets := secrets c; ks_accounts := ks_accounts c;
     key_counter := key_counter c; clock := clock c; latency := latency c;
     settled := settled c; assets := assets c; pool := pool c;
     transfers := m |}.

(** ** The SDK's answers *)

(** The address of the [n]-th derived key: the network prefix, the
    pay-to-key-hash marker and the key number. *)
Definition derive_address (p : P2PKH) (n : nat) : address :=
  match p2pkh_networkId p with JStr net => net | _ => EmptyString end +:+ "caq" +:+ pretty n.

Definition tracker_of (t : Transaction) : H256 :=
  match t with
  | MintAsset sch r => "mint:" +:+ metadata sch +:+ ":" +:+ pretty (supply sch) +:+ ":" +:+ r
  | OtherTransaction k b => k +:+ ":" +:+ b
  end.

Definition signer_account (c : Chain) (m : SigningMethod) : option address :=
  match m with
  | KeyStoreAccount _ account => Some account
  | RawSecret secret => secrets c !! secret
  end.

Definition minted_asset (t : Transaction) (tr : H256) : option Asset :=
  match t with
  | MintAsset sch r =>
      Some {| asset_tracker := tr; asset_index := 0; asset_shard := shardId sch;
              asset_metadata := metadata sch; asset_quantity := supply sch;
              asset_recipient := r |}
  | OtherTransaction _ _ => None
  end.

(** Accept a broadcast: bump the signer's sequence, queue the transaction,
    schedule its settlement and, for a mint, record its asset. *)
Definition accept (stx : SignedTransaction) (account : address) (seq : Z) (c : Chain) : Chain :=
  let tr := tracker_of (signed_tx stx) in
  {| seqs := <[account := (seq + 1)%Z]> (seqs c); secrets := secrets c;
     ks_accounts := ks_accounts c; key_counter := key_counter c; clock := clock c;
     latency := latency c;
     settled := <[tr := ((clock c + latency c)%Z, [true])]> (settled c);
     assets := match minted_asset (signed_tx stx) tr with
               | Some a => <[(tr, 0%Z) := a]> (assets c)
               | None => assets c
               end;
     pool := pool c ++ [stx]; transfers := transfers c |}.

Definition broadcast (stx : SignedTransaction) (c : Chain) : result exn H256 * Chain :=
  match signer_account c (signed_by stx) with
  | None => (throw (JsError "Invalid signature"), c)
  | Some account =>
      let expected := with_default (seqs c !! account) 0%Z in
      if decide (signed_seq stx = Some expected)
      then (Ok ("0x" +:+ tracker_of (signed_tx stx)), accept stx account expected c)
      else (throw (JsError "Invalid seq"), c)
  end.

(** The flags of a settlement that has happened by [now]. *)
Definition settled_by (e : option (Z * list bool)) (now : Z) : option (list bool) :=
  match e with
  | Some (t, flags) => if Z.leb t now then Some flags else None
  | None => None
  end.

Definition poll_interval : Z := 1000.
Definition timeout_error : exn := JsError "Timeout".

(** The SDK's polling loop, one check per interval; [fuel] is the number
    of intervals left before the timeout.  It returns the outcome and the
    time at which it returned. *)
Fixpoint poll (fuel : nat) (e : option (Z * list bool)) (now : Z) : result exn (list bool) * Z :=
  match settled_by e now with
  | Some flags => (Ok flags, now)
  | None =>
      match fuel with
      | O => (throw timeout_error, now)
      | S fuel' => poll fuel' e (now + poll_interval)%Z
      end
  end.

Arguments poll : simpl never.

Definition poll_fuel (timeout : Z) : nat := Z.to_nat (timeout / poll_interval).

Definition lookup_asset (c : Chain) (tr : H256) (index shard : Z) : option Asset :=
  match assets c !! (tr, index), settled_by (settled c !! tr) (clock c) with
  | Some a, Some _ => if Z.eqb (asset_shard a) shard then Some a else None
  | _, _ => None
  end.

(** Sign input [index] of the transfer at [ref]: out of range is an error. *)
Definition sign_input (c : Chain) (ref : TxRef) (index : Z) (ks : KeyStore) : result exn unit * Chain :=
  match transfers c !! ref with
  | None => (throw (JsError "Unknown transaction"), c)
  | Some t =>
      match inputs t !! Z.to_nat index with
      | Some i => if Z.leb 0 index then
          let i' := {| prevOut := prevOut i; unlock := Some (KeyStoreSignature ks ref index) |} in
          (Ok tt, with_transfers (<[ref := {| inputs := <[Z.to_nat index := i']> (inputs t) |}]> (transfers c)) c)
          else (throw (JsError "Invalid index"), c)
      | None => (throw (JsError "Invalid index"), c)
      end
  end.

Definition handle : handler Chain := fun q c =>
  match q as q return result exn (response q) * Chain with
  | CreateP2PKH sdk ks => (Ok {| p2pkh_keyStore := ks; p2pkh_networkId := networkId sdk |}, c)
  | CreateAddress p => (Ok (derive_address p (key_counter c)), with_key_counter (S (key_counter c)) c)
  | GetSeq _ account => (Ok (seqs c !! account), c)
  | SignTransaction _ tx ks account fee seq =>
      if decide (account ∈ ks_accounts c)
      then (Ok {| signed_tx := tx; signed_fee := fee; signed_seq := seq;
                  signed_by := KeyStoreAccount ks account |}, c)
      else (throw (JsError "Key not found"), c)
  | Sign tx secret fee seq =>
      (Ok {| signed_tx := tx; signed_fee := fee; signed_seq := Some seq;
             signed_by := RawSecret secret |}, c)
  | SendSignedTransaction _ stx => broadcast stx c
  | Tracker tx => (Ok (tracker_of tx), c)
  | GetTransactionResultsByTracker _ tr timeout =>
      let '(r, now) := poll (poll_fuel timeout) (settled c !! tr) (clock c) in
      (r, with_clock now c)
  | CreateMintAssetTransaction _ sch r => (Ok (MintAsset sch r), c)
  | GetAsset _ tr index shard => (Ok (lookup_asset c tr index shard), c)
  | SignTransactionInput _ ref index ks => sign_input c ref index ks
  end.

#[export] Instance client : ChainClient Chain := handle.

(** A small chain: one faucet account at sequence 5 that a raw secret
    signs for, one key-store account, settlement after [delay] ms, and a
    transfer with two unsigned inputs at heap reference 0. *)
Definition genesis (faucet_secret faucet_account ks_account : string) (delay : Z) : Chain :=
  {| seqs := {[ faucet_account := 5%Z ]};
     secrets := {[ faucet_secret := faucet_account ]};
     ks_accounts := {[ ks_account ]}; key_counter := 0; clock := 0; latency := delay;
     settled := ∅; assets := ∅; pool := [];
     transfers := {[ 0 := {| inputs := [{| prevOut := "out0"; unlock := None |};
                                        {| prevOut := "out1"; unlock := None |}] |} ]} |}.

(** ** The polling loop *)

Lemma settled_by_before e now :
  (forall t fl, e = Some (t, fl) -> (now < t)%Z) -> settled_by e now = None.
Proof.
  intros He. destruct e as [[t fl]|]; [|done]. simpl.
  specialize (He t fl eq_refl). destruct (Z.leb_spec t now); [lia | done].
Qed.

Lemma poll_settled fuel e now flags :
  settled_by e now = Some flags -> poll fuel e now = (Ok flags, now).
Proof. intros H. destruct fuel; unfold poll; by rewrite H. Qed.

(** When nothing settles before the last check, the loop gives up with
    the timeout error after [fuel] intervals: it never hangs. *)
Lemma poll_timeout fuel e now :
  (forall t fl, e = Some (t, fl) -> (now + Z.of_nat fuel * poll_interval < t)%Z) ->
  poll fuel e now = (throw timeout_error, (now + Z.of_nat fuel * poll_interval)%Z).
Proof.
  revert now. induction fuel as [|f IH]; intros now He; unfold poll; fold poll; unfold poll_interval in *.
  - rewrite settled_by_before; [f_equal; lia|]. intros t fl Ht. specialize (He t fl Ht). lia.
  - rewrite settled_by_before; [|intros t fl Ht; specialize (He t fl Ht); lia].
    rewrite IH; [f_equal; lia|]. intros t fl Ht. specialize (He t fl Ht). lia.
Qed.

(** A settlement due by the last check is observed, at a time no earlier
    than the settlement and no later than the last check. *)
Lemma poll_observes fuel now t fl :
  (t <= now + Z.of_nat fuel * poll_interval)%Z ->
  exists now', poll fuel (Some (t, fl)) now = (Ok fl, now') /\
               (t <= now')%Z /\ (now' <= now + Z.of_nat fuel * poll_interval)%Z.
Proof.
  revert now. induction fuel as [|f IH]; intros now Ht; unfold poll; fold poll; simpl; unfold poll_interval in *.
  - destruct (Z.leb_spec t now); [exists now; split; [done|lia] | lia].
  - destruct (Z.leb_spec t now); [exists now; split; [done|lia]|].
    destruct (IH (now + 1000)%Z) as (now' & -> & ? & ?); [lia|].
    exists now'. split; [done|lia].
Qed.

(** ** Signing an input *)

(** Signing input [index] of the transfer at [ref] leaves every other
    transfer of the heap as it was. *)
Lemma sign_input_other_refs c ref index ks c' :
  sign_input c ref index ks = (Ok tt, c') ->
  forall ref', ref' <> ref -> transfers c' !! ref' = transfers c !! ref'.
Proof.
  unfold sign_input. intros H ref' Hne.
  destruct (transfers c !! ref) as [t|]; [|discriminate].
  destruct (inputs t !! Z.to_nat index); [|discriminate].
  destruct (Z.leb 0 index); [|discriminate]. injection H as <-. simpl.
  by rewrite lookup_insert_ne.
Qed.

(** Inside that transfer, only the signature slot of input [index]
    changes: the other inputs and the number of inputs stay as they were. *)
Lemma sign_input_slot c ref index ks c' t :
  sign_input c ref index ks = (Ok tt, c') -> transfers c !! ref = Some t ->
  exists i t',
    transfers c' !! ref = Some t' /\
    inputs t !! Z.to_nat index = Some i /\
    inputs t' = <[Z.to_nat index := {| prevOut := prevOut i;
                                       unlock := Some (KeyStoreSignature ks ref index) |}]> (inputs t).
Proof.
  unfold sign_input. intros H Ht. rewrite Ht in H.
  destruct (inputs t !! Z.to_nat index) as [i|] eqn:Hi; [|discriminate].
  destruct (Z.leb 0 index); [|discriminate]. injection H as <-.
  exists i. eexists. simpl. rewrite lookup_insert_eq. by split; [|split].
Qed.

(** An index outside the inputs is rejected and changes nothing. *)
Lemma sign_input_out_of_range c (ref : TxRef) index (ks : KeyStore) t :
  transfers c !! ref = Some t ->
  (index < 0)%Z \/ length (inputs t) <= Z.to_nat index ->
  sign_input c ref index ks = (throw (JsError "Invalid index"), c).
Proof.
  unfold sign_input. intros -> Hr.
  destruct (inputs t !! Z.to_nat index) eqn:Hi; [|done].
  destruct (Z.leb_spec 0 index); [|done].
  apply lookup_lt_Some in Hi. lia.
Qed.

End Stub.
