(* ===== verification/Helper.v ===== *)
(** * The submission helper: class [Helper] of src/src/util.ts (lines 9-119)

    The record [Helper] holds the class's two private fields.  [Helper_new]
    is its constructor, and each public method is a [prog] over the SDK
    requests of [Sdk].  A parameter object with optional properties is a
    record of [option]s, one per property of the TypeScript type, in the
    order the code destructures them.  [None] stands for [undefined].

    The theorems hold for every handler, that is, for every client the SDK
    might be talking to.  They cover which requests a method issues, in
    which order and with which arguments, what it returns, and how a
    rejected request propagates.  Each [Section] fixes the handler and the
    helper instance for its group.  The witnesses run the methods on the
    reference client of [Stub]. *)
From stdpp Require Import base list strings gmap.
From Stdlib Require Import ZArith.
From S2P Require Import Prelude Js Config Sdk Stub.
Open Scope helper_scope.

(** ** The code *)

(** Lines 10-11: the default signer of asset transactions. *)
Definition faucetSecret : string :=
  "ede1d4ccb4ec9a8bbbae9a13db3f4a7b56ea04189be86ac3a6a439d9a0a1addd".
Definition faucetAddress : address :=
  "tccq9h7vnl68frvqapzv3tujrxtxtwqdnxw6yamrrgd".

(** Lines 13-15. *)
Record Helper : Type := {
  keyStore : KeyStore;
  sdk : SdkConfig
}.

(** Lines 17-23: [rpc_url] is read before [network_id]; the first failure
    is the constructor's exception. *)
Definition Helper_new `{ConfigSource} (ks : KeyStore) : result exn Helper :=
  rpcUrl ← getConfig "rpc_url";
  networkId ← getConfig "network_id";
  Ok {| keyStore := ks; sdk := {| server := rpcUrl; networkId := networkId |} |}.

(** Lines 25-28. *)
Definition createP2PKHAddress (self : Helper) : prog address :=
  p2pkh ← call (CreateP2PKH (sdk self) (keyStore self));
  call (CreateAddress p2pkh).

(** The parameter object of [sendTransaction] (lines 32-36). *)
Module SendTransactionParams.
Record t : Type := {
    account : address;
    fee : option Z;
    seq : option Z
  }.
End SendTransactionParams.

(** Lines 30-47.  The sequence number passed to the signer is what
    [getSeq] resolved to, [null] included, when [seq] is omitted. *)
Definition sendTransaction (self : Helper) (tx : Transaction)
    (params : SendTransactionParams.t) : prog H256 :=
  let account := SendTransactionParams.account params in
  let fee := with_default (SendTransactionParams.fee params) 10%Z in
  seq ← await_default (Some <$> SendTransactionParams.seq params)
          (call (GetSeq (sdk self) account));
  signed ← call (SignTransaction (sdk self) tx (keyStore self) account fee seq);
  call (SendSignedTransaction (sdk self) signed).

(** The options object of [sendAssetTransaction] (lines 51-56). *)
Module AssetTransactionOptions.
Record t : Type := {
    seq : option Z;
    fee : option Z;
    awaitResult : option bool;
    secret : option string
  }.
  (** [{}]: every property [undefined]. *)
Definition empty : t := {| seq := None; fee := None; awaitResult := None; secret := None |}.
End AssetTransactionOptions.

(** Lines 49-78.  [options || {}] replaces an omitted options object by
    [{}]; the sequence default is [(await getSeq(faucetAddress)) || 0],
    fetched for the faucet address whatever [secret] is.  The method
    returns [undefined] ([None]) when it does not await the result. *)
Definition sendAssetTransaction (self : Helper) (tx : Transaction)
    (options : option AssetTransactionOptions.t) : prog (option (list bool)) :=
  let o := with_default options AssetTransactionOptions.empty in
  seq ← await_default (AssetTransactionOptions.seq o)
          (r ← call (GetSeq (sdk self) faucetAddress); mret (or_number r 0%Z));
  let fee := with_default (AssetTransactionOptions.fee o) 10%Z in
  let awaitResult := with_default (AssetTransactionOptions.awaitResult o) true in
  let secret := with_default (AssetTransactionOptions.secret o) faucetSecret in
  signed ← call (Sign tx secret fee seq);
  _ ← call (SendSignedTransaction (sdk self) signed);
  if awaitResult then
    tracker ← call (Tracker tx);
    results ← call (GetTransactionResultsByTracker (sdk self) tracker (300 * 1000)%Z);
    mret (Some results)
  else mret None.

(** The parameter object of [mintAsset] (lines 80-86). *)
Module MintAssetParams.
Record t : Type := {
    supply : Z;
    recipient : option address;
    secret : option string;
    seq : option Z;
    metadata : option string
  }.
End MintAssetParams.

(** Lines 80-111.  The recipient default derives a fresh address only
    when [recipient] is omitted; the result flags of the mint are not
    inspected; a missing asset is an explicit exception. *)
Definition mintAsset (self : Helper) (params : MintAssetParams.t) : prog Asset :=
  recipient ← await_default (MintAssetParams.recipient params) (createP2PKHAddress self);
  let metadata := with_default (MintAssetParams.metadata params) EmptyString in
  tx ← call (CreateMintAssetTransaction (sdk self)
              {| shardId := 0; metadata := metadata; supply := MintAssetParams.supply params |}
              recipient);
  _ ← sendAssetTransaction self tx
        (Some {| AssetTransactionOptions.seq := MintAssetParams.seq params;
                 AssetTransactionOptions.fee := None;
                 AssetTransactionOptions.awaitResult := None;
                 AssetTransactionOptions.secret := MintAssetParams.secret params |});
  tracker ← call (Tracker tx);
  asset ← call (GetAsset (sdk self) tracker 0 0);
  match asset with
  | None => Raise (JsError "Failed to mint asset")
  | Some a => mret a
  end.

(** Lines 113-118: the helper forwards the reference; the SDK mutates the
    transaction it designates.  The method returns [undefined]. *)
Definition signTransactionInput (self : Helper) (tx : TxRef) (index : Z) : prog unit :=
  call (SignTransactionInput (sdk self) tx index (keyStore self)).

(** ** Fixtures for the witnesses *)

Definition demo_helper : Helper :=
  {| keyStore := MkKeyStore 0;
     sdk := {| server := JStr "http://localhost:8080"; networkId := JStr "tc" |} |}.
Definition demo_account : address := "tccqalice".
Definition demo_chain : Stub.Chain := Stub.genesis faucetSecret faucetAddress demo_account 2000.
(** A chain on which the faucet secret signs for no account. *)
Definition demo_unregistered : Stub.Chain :=
  Stub.genesis "not-the-faucet-secret" faucetAddress demo_account 2000.
Definition demo_params (seq : option Z) : SendTransactionParams.t :=
  {| SendTransactionParams.account := demo_account; SendTransactionParams.fee := None;
     SendTransactionParams.seq := seq |}.
Definition demo_options (seq : option Z) (awaitResult : option bool) (secret : option string)
  : AssetTransactionOptions.t :=
  {| AssetTransactionOptions.seq := seq; AssetTransactionOptions.fee := None;
     AssetTransactionOptions.awaitResult := awaitResult; AssetTransactionOptions.secret := secret |}.
Definition demo_mint : MintAssetParams.t :=
  {| MintAssetParams.supply := 100; MintAssetParams.recipient := None;
     MintAssetParams.secret := None; MintAssetParams.seq := None;
     MintAssetParams.metadata := None |}.
Definition demo_tx : Transaction := OtherTransaction "pay" "alice-bob-10".
Definition demo_config : gmap string jsval :=
  <["rpc_url" := JStr "http://localhost:8080"]> {[ "network_id" := JStr "tc" ]}.

(** ** Which requests each method issues, and in which order *)

(** The request kinds of [sendAssetTransaction]: an optional sequence
    lookup, the signature, the broadcast, and when the result is awaited
    the tracker and the result poll. *)
Definition asset_tx_kinds (options : option AssetTransactionOptions.t) : list kind :=
  let o := with_default options AssetTransactionOptions.empty in
  (match AssetTransactionOptions.seq o with Some _ => [] | None => [KGetSeq] end) ++ [KSign; KSend] ++
  (if with_default (AssetTransactionOptions.awaitResult o) true
   then [KTracker; KGetResults] else []).

Lemma createP2PKHAddress_protocol self :
  protocol (createP2PKHAddress self) [KCreateP2PKH; KCreateAddress].
Proof. unfold createP2PKHAddress. solve_protocol. Qed.

(** C1: sendTransaction issues, in this order, the sequence lookup (only
    when seq is omitted), the key-store signature and the broadcast; it
    stops at the first rejected call and issues all of them when it
    returns.  In particular an explicit seq never causes a lookup. *)
Theorem sendTransaction_protocol self tx params :
  protocol (sendTransaction self tx params)
    ((match SendTransactionParams.seq params with Some _ => [] | None => [KGetSeq] end) ++
     [KSignTransaction; KSend]).
Proof.
  unfold sendTransaction. apply protocol_bind.
  - destruct (SendTransactionParams.seq params); simpl; solve_protocol.
  - intro. solve_protocol.
Qed.

Lemma asset_tx_protocol self tx options :
  protocol (sendAssetTransaction self tx options) (asset_tx_kinds options).
Proof.
  unfold sendAssetTransaction, asset_tx_kinds. apply protocol_bind.
  - destruct (AssetTransactionOptions.seq _); solve_protocol.
  - intro. cbv zeta. destruct (with_default _ true); solve_protocol.
Qed.

(** C2: sendAssetTransaction issues, in this order, the faucet sequence
    lookup (only when seq is omitted), the raw-secret signature, one
    broadcast, and, unless awaitResult is false, the tracker and one
    result poll. *)
Theorem sendAssetTransaction_protocol self tx options :
  protocol (sendAssetTransaction self tx options) (asset_tx_kinds options).
Proof. apply asset_tx_protocol. Qed.

(** C3: mintAsset derives a fresh address (only when recipient is omitted),
    builds the mint transaction, runs the whole of sendAssetTransaction
    with the result awaited, then reads the tracker and looks the asset
    up; nothing else is called and nothing is called twice except the
    tracker. *)
Theorem mintAsset_protocol self params :
  protocol (mintAsset self params)
    ((match MintAssetParams.recipient params with
      | Some _ => [] | None => [KCreateP2PKH; KCreateAddress] end) ++
     [KCreateMint] ++
     ((match MintAssetParams.seq params with Some _ => [] | None => [KGetSeq] end) ++
      [KSign; KSend; KTracker; KGetResults]) ++
     [KTracker; KGetAsset]).
Proof.
  unfold mintAsset. apply protocol_bind.
  - apply protocol_await_default, createP2PKHAddress_protocol.
  - intro. apply (protocol_bind _ _ [_]); [refine (protocol_call _ _ eq_refl) | intro].
    apply protocol_bind; [apply asset_tx_protocol | intro].
    solve_protocol.
Qed.

Lemma signTransactionInput_protocol self tx index :
  protocol (signTransactionInput self tx index) [KSignInput].
Proof. exact (protocol_call _ _ eq_refl). Qed.

(** ** The constructor *)

Section Constructor.
  Context `{ConfigSource}.

Lemma Helper_new_Ok_iff ks self :
    Helper_new ks = Ok self <->
    exists rpcUrl networkId,
      getConfig "rpc_url" = Ok rpcUrl /\ getConfig "network_id" = Ok networkId /\
      self = {| keyStore := ks; sdk := {| server := rpcUrl; networkId := networkId |} |}.
  Proof.
    unfold Helper_new. split.
    - intros (u & Hu & (n & Hn & [= <-]) %result_bind_Ok) %result_bind_Ok. eauto 6.
    - intros (u & n & Hu & Hn & ->). by rewrite Hu, Hn.
  Qed.

  (** C19: the constructor succeeds exactly when both settings are read
      successfully; the SDK is then built from rpc_url as server and
      network_id as network identifier, and the key store is kept. *)
Theorem Helper_new_Ok ks self :
    Helper_new ks = Ok self <->
    exists rpcUrl networkId,
      getConfig "rpc_url" = Ok rpcUrl /\ getConfig "network_id" = Ok networkId /\
      self = {| keyStore := ks; sdk := {| server := rpcUrl; networkId := networkId |} |}.
  Proof. apply Helper_new_Ok_iff. Qed.

  (** C20: rpc_url is read first: when it is missing or null the constructor
      fails with its error, whatever network_id holds; network_id's error
      is reported only when rpc_url is valid. *)
Theorem Helper_new_error_order ks e :
    (getConfig "rpc_url" = Err e -> Helper_new ks = Err e) /\
    (forall rpcUrl, getConfig "rpc_url" = Ok rpcUrl ->
       getConfig "network_id" = Err e -> Helper_new ks = Err e).
  Proof. unfold Helper_new. split; [by intros -> | by intros ? -> ->]. Qed.

  (** C21: with node-config's laws, construction succeeds if and only if
      haveConfig holds for both rpc_url and network_id. *)
Theorem Helper_new_iff_haveConfig `{!ConfigLaws} ks :
    (exists self, Helper_new ks = Ok self) <->
    haveConfig "rpc_url" = Ok true /\ haveConfig "network_id" = Ok true.
  Proof.
    rewrite !haveConfig_true_iff. setoid_rewrite Helper_new_Ok_iff.
    split; [intros (? & ? & ? & ? & ? & _); eauto|].
    intros [[u ?] [n ?]]. eauto 6.
  Qed.
End Constructor.

Lemma Helper_new_iff_haveConfig_witness :
  @ConfigLaws (MapConfig demo_config) /\
  ((exists self, @Helper_new (MapConfig demo_config) (MkKeyStore 0) = Ok self) <->
   @haveConfig (MapConfig demo_config) "rpc_url" = Ok true /\
   @haveConfig (MapConfig demo_config) "network_id" = Ok true).
Proof.
  split; [apply MapConfig_laws|].
  apply (@Helper_new_iff_haveConfig (MapConfig demo_config) (MapConfig_laws demo_config)).
Defined.

(** ** What each method sends, on every branch *)

(** Rewrite the handler's answers into a run, one request at a time. *)
Ltac run_answers :=
  simpl;
  repeat match goal with
  | E : ?h ?q ?s = _ |- context [?h ?q ?s] => rewrite E; simpl
  end.

Section Methods.
  Context {S : Type} (h : handler S) (self : Helper).

  (** C8: with seq omitted, sendTransaction looks the account's sequence up
      once, signs with the key store, the account, fee (default 10) and
      exactly the value the lookup resolved to (null included), broadcasts
      the transaction the signer returned and resolves to the hash the
      broadcast resolved to. *)
Theorem sendTransaction_lookup_then_sign tx params s r s1 signed s2 :
    let account := SendTransactionParams.account params in
    let fee := with_default (SendTransactionParams.fee params) 10%Z in
    SendTransactionParams.seq params = None ->
    h (GetSeq (sdk self) account) s = (Ok r, s1) ->
    h (SignTransaction (sdk self) tx (keyStore self) account fee r) s1 = (Ok signed, s2) ->
    run h (sendTransaction self tx params) s =
      Outcome (h (SendSignedTransaction (sdk self) signed) s2).1
              (h (SendSignedTransaction (sdk self) signed) s2).2
              [GetSeq (sdk self) account;
               SignTransaction (sdk self) tx (keyStore self) account fee r;
               SendSignedTransaction (sdk self) signed].
  Proof.
    cbv zeta. intros Hseq H1 H2. unfold sendTransaction. rewrite Hseq.
    run_answers. by destruct (h _ s2) as [[] ?].
  Qed.

  (** C9: with an explicit seq (0 included), sendTransaction signs with
      that seq without any lookup, then broadcasts the signed transaction. *)
Theorem sendTransaction_explicit_seq tx params n s signed s1 :
    let account := SendTransactionParams.account params in
    let fee := with_default (SendTransactionParams.fee params) 10%Z in
    SendTransactionParams.seq params = Some n ->
    h (SignTransaction (sdk self) tx (keyStore self) account fee (Some n)) s = (Ok signed, s1) ->
    run h (sendTransaction self tx params) s =
      Outcome (h (SendSignedTransaction (sdk self) signed) s1).1
              (h (SendSignedTransaction (sdk self) signed) s1).2
              [SignTransaction (sdk self) tx (keyStore self) account fee (Some n);
               SendSignedTransaction (sdk self) signed].
  Proof.
    cbv zeta. intros Hseq H1. unfold sendTransaction. rewrite Hseq.
    run_answers. by destruct (h _ s1) as [[] ?].
  Qed.
End Methods.

Section AssetMethods.
  Context {S : Type} (h : handler S) (self : Helper).

  (** C10: with no options at all, sendAssetTransaction fetches the faucet
      address's sequence (taking 0 when the chain reports null or 0),
      signs with the faucet secret and fee 10, broadcasts once, and then
      polls the transaction's tracker with a timeout of 300 000 ms,
      resolving to the per-output flags the poll returned. *)
Theorem sendAssetTransaction_defaults tx s r s1 signed s2 hash s3 tr s4 :
    h (GetSeq (sdk self) faucetAddress) s = (Ok r, s1) ->
    h (Sign tx faucetSecret 10 (or_number r 0)) s1 = (Ok signed, s2) ->
    h (SendSignedTransaction (sdk self) signed) s2 = (Ok hash, s3) ->
    h (Tracker tx) s3 = (Ok tr, s4) ->
    out_trace (run h (sendAssetTransaction self tx None) s) =
      [GetSeq (sdk self) faucetAddress; Sign tx faucetSecret 10 (or_number r 0);
       SendSignedTransaction (sdk self) signed; Tracker tx;
       GetTransactionResultsByTracker (sdk self) tr (300 * 1000)] /\
    (forall flags s5, h (GetTransactionResultsByTracker (sdk self) tr (300 * 1000)) s4 = (Ok flags, s5) ->
       out_result (run h (sendAssetTransaction self tx None) s) = Ok (Some flags)).
  Proof.
    intros H1 H2 H3 H4. unfold sendAssetTransaction. run_answers.
    split; [by destruct (h _ s4) as [[] ?] | intros flags s5 H5; by rewrite H5].
  Qed.

  (** C11: with awaitResult false, sendAssetTransaction resolves to
      undefined as soon as the single broadcast is accepted, and never
      reads the tracker or polls for the result.  This holds whether seq is
      given (it is signed as is) or omitted (the faucet's sequence is
      fetched first, with null and 0 read as 0). *)
Theorem sendAssetTransaction_no_await tx o n s s0 signed s1 hash s2 :
    let sign := Sign tx (with_default (AssetTransactionOptions.secret o) faucetSecret)
                     (with_default (AssetTransactionOptions.fee o) 10%Z) n in
    let lookup := match AssetTransactionOptions.seq o with
                  | Some _ => [] | None => [GetSeq (sdk self) faucetAddress] end in
    AssetTransactionOptions.awaitResult o = Some false ->
    match AssetTransactionOptions.seq o with
    | Some k => n = k /\ s0 = s
    | None => exists r, h (GetSeq (sdk self) faucetAddress) s = (Ok r, s0) /\ n = or_number r 0%Z
    end ->
    h sign s0 = (Ok signed, s1) ->
    h (SendSignedTransaction (sdk self) signed) s1 = (Ok hash, s2) ->
    run h (sendAssetTransaction self tx (Some o)) s =
      Outcome (Ok None) s2 (lookup ++ [sign; SendSignedTransaction (sdk self) signed]).
  Proof.
    cbv zeta. intros Ha Hn H1 H2. unfold sendAssetTransaction. simpl. rewrite Ha.
    destruct (AssetTransactionOptions.seq o) as [k|].
    - destruct Hn as [-> ->]. simpl. run_answers. done.
    - destruct Hn as (r & H0 & ->). simpl. run_answers. done.
  Qed.

  (** C13: an explicit seq (0 included) is signed as given, with no lookup:
      the first request of sendAssetTransaction is the signature itself. *)
Theorem sendAssetTransaction_explicit_seq tx o n s :
    AssetTransactionOptions.seq o = Some n ->
    head (out_trace (run h (sendAssetTransaction self tx (Some o)) s)) =
      Some (Sign tx (with_default (AssetTransactionOptions.secret o) faucetSecret)
                 (with_default (AssetTransactionOptions.fee o) 10%Z) n).
  Proof.
    intros Hn. unfold sendAssetTransaction. simpl. rewrite Hn. simpl.
    by destruct (h _ s) as [[] ?].
  Qed.

  (** C14: when a caller supplies its own secret but no seq, the sequence is
      still fetched for the faucet address, and the caller's secret signs
      with the faucet's sequence number. *)
Theorem sendAssetTransaction_custom_secret_uses_faucet_seq tx o secret s r s1 :
    AssetTransactionOptions.seq o = None ->
    AssetTransactionOptions.secret o = Some secret ->
    h (GetSeq (sdk self) faucetAddress) s = (Ok r, s1) ->
    take 2 (out_trace (run h (sendAssetTransaction self tx (Some o)) s)) =
      [GetSeq (sdk self) faucetAddress;
       Sign tx secret (with_default (AssetTransactionOptions.fee o) 10%Z) (or_number r 0)].
  Proof.
    intros Hn Hsec H1. unfold sendAssetTransaction. simpl. rewrite Hn, Hsec.
    run_answers. by destruct (h _ s1) as [[] ?].
  Qed.

  (** C15: when recipient is omitted, mintAsset builds the mint transaction
      on shard 0 with the given supply, the metadata (default empty) and
      the address freshly derived from the key store as recipient. *)
Theorem mintAsset_mint_request params s p s1 addr s2 :
    MintAssetParams.recipient params = None ->
    h (CreateP2PKH (sdk self) (keyStore self)) s = (Ok p, s1) ->
    h (CreateAddress p) s1 = (Ok addr, s2) ->
    take 3 (out_trace (run h (mintAsset self params) s)) =
      [CreateP2PKH (sdk self) (keyStore self); CreateAddress p;
       CreateMintAssetTransaction (sdk self)
         {| shardId := 0; metadata := with_default (MintAssetParams.metadata params) EmptyString;
            supply := MintAssetParams.supply params |} addr].
  Proof.
    intros Hr H1 H2. unfold mintAsset. rewrite Hr. unfold createP2PKHAddress.
    run_answers. by destruct (h _ s2) as [[] ?].
  Qed.
End AssetMethods.

(** ** Exceptions *)

Section Errors.
  Context {S : Type} (h : handler S) (self : Helper).

Lemma sendAssetTransaction_no_raise tx options e :
    ~ raises (sendAssetTransaction self tx options) e.
  Proof.
    unfold sendAssetTransaction. intros H.
    destruct (AssetTransactionOptions.seq _); no_raise.
  Qed.

  (** C16: every exception of sendTransaction, sendAssetTransaction and
      signTransactionInput is the rejection of the last SDK request they
      issued, passed through unmodified and never retried. *)
Theorem sdk_errors_propagate_unchanged tx params options ref index s e :
    (out_result (run h (sendTransaction self tx params) s) = Err e ->
     exists q s1 s2, last (out_trace (run h (sendTransaction self tx params) s)) = Some q /\
                     h q s1 = (Err e, s2)) /\
    (out_result (run h (sendAssetTransaction self tx options) s) = Err e ->
     exists q s1 s2, last (out_trace (run h (sendAssetTransaction self tx options) s)) = Some q /\
                     h q s1 = (Err e, s2)) /\
    (out_result (run h (signTransactionInput self ref index) s) = Err e ->
     exists q s1 s2, last (out_trace (run h (signTransactionInput self ref index) s)) = Some q /\
                     h q s1 = (Err e, s2)).
  Proof.
    split; [|split]; intros Hr; (destruct (run_Err_source h _ s e Hr) as [Hra | ?]; [|done]).
    - unfold sendTransaction in Hra. destruct (SendTransactionParams.seq _); simpl in Hra; no_raise.
    - by apply sendAssetTransaction_no_raise in Hra.
    - by apply raises_call in Hra.
  Qed.

  (** C17: mintAsset's own exception is exactly "Failed to mint asset"; every
      other exception is an SDK rejection passed through unmodified. *)
Theorem mintAsset_errors params s e :
    out_result (run h (mintAsset self params) s) = Err e ->
    e = JsError "Failed to mint asset" \/
    exists q s1 s2, last (out_trace (run h (mintAsset self params) s)) = Some q /\
                    h q s1 = (Err e, s2).
  Proof.
    intros Hr. destruct (run_Err_source h _ s e Hr) as [Hra | ?]; [left|by right].
    unfold mintAsset, createP2PKHAddress in Hra.
    destruct (MintAssetParams.recipient _); no_raise;
      try by apply sendAssetTransaction_no_raise in Hra.
    all: match goal with H : raises (match ?a with Some _ => _ | None => _ end) _ |- _ =>
           destruct a; simpl in H; [done | by subst] end.
  Qed.
End Errors.

(** ** Signing an input, on the reference client *)

(** C18: signTransactionInput, when it succeeds, changes only the
    signature slot at the given index: every other transfer in the
    caller's heap and every other input of the same transfer are
    unchanged, and the number of inputs is kept. *)
Theorem signTransactionInput_only_slot self ref index c t :
  Stub.transfers c !! ref = Some t ->
  out_result (run Stub.handle (signTransactionInput self ref index) c) = Ok tt ->
  let c' := out_state (run Stub.handle (signTransactionInput self ref index) c) in
  (forall ref', ref' <> ref -> Stub.transfers c' !! ref' = Stub.transfers c !! ref') /\
  exists t', Stub.transfers c' !! ref = Some t' /\ length (Stub.inputs t') = length (Stub.inputs t) /\
    forall j, j <> Z.to_nat index -> Stub.inputs t' !! j = Stub.inputs t !! j.
Proof.
  intros Ht. unfold signTransactionInput. simpl.
  destruct (Stub.sign_input c ref index (keyStore self)) as [[[]|e] c'] eqn:E; simpl; [|discriminate].
  intros _. split; [by eapply Stub.sign_input_other_refs|].
  destruct (Stub.sign_input_slot _ _ _ _ _ _ E Ht) as (i & t' & Ht' & _ & Hin).
  exists t'. rewrite Hin, length_insert. split_and!; [done | done |].
  intros j Hj. by apply list_lookup_insert_ne.
Qed.

(** ** Witnesses *)

Lemma sendTransaction_lookup_then_sign_witness :
  exists r s1 signed s2,
    SendTransactionParams.seq (demo_params None) = None /\
    Stub.handle (GetSeq (sdk demo_helper) demo_account) demo_chain = (Ok r, s1) /\
    Stub.handle (SignTransaction (sdk demo_helper) demo_tx (keyStore demo_helper)
                   demo_account 10 r) s1 = (Ok signed, s2) /\
    run Stub.handle (sendTransaction demo_helper demo_tx (demo_params None)) demo_chain =
      Outcome (Stub.handle (SendSignedTransaction (sdk demo_helper) signed) s2).1
              (Stub.handle (SendSignedTransaction (sdk demo_helper) signed) s2).2
              [GetSeq (sdk demo_helper) demo_account;
               SignTransaction (sdk demo_helper) demo_tx (keyStore demo_helper) demo_account 10 r;
               SendSignedTransaction (sdk demo_helper) signed].
Proof.
  eexists _, _, _, _. split_and!; [reflexivity | reflexivity | reflexivity |].
  exact (sendTransaction_lookup_then_sign Stub.handle demo_helper demo_tx (demo_params None)
           demo_chain _ _ _ _ eq_refl eq_refl eq_refl).
Defined.

Lemma sendTransaction_explicit_seq_witness :
  exists signed s1,
    SendTransactionParams.seq (demo_params (Some 0%Z)) = Some 0%Z /\
    Stub.handle (SignTransaction (sdk demo_helper) demo_tx (keyStore demo_helper)
                   demo_account 10 (Some 0%Z)) demo_chain = (Ok signed, s1) /\
    run Stub.handle (sendTransaction demo_helper demo_tx (demo_params (Some 0%Z))) demo_chain =
      Outcome (Stub.handle (SendSignedTransaction (sdk demo_helper) signed) s1).1
              (Stub.handle (SendSignedTransaction (sdk demo_helper) signed) s1).2
              [SignTransaction (sdk demo_helper) demo_tx (keyStore demo_helper) demo_account 10 (Some 0%Z);
               SendSignedTransaction (sdk demo_helper) signed].
Proof.
  eexists _, _. split_and!; [reflexivity | reflexivity |].
  exact (sendTransaction_explicit_seq Stub.handle demo_helper demo_tx (demo_params (Some 0%Z))
           0 demo_chain _ _ eq_refl eq_refl).
Defined.

Lemma sendAssetTransaction_defaults_witness :
  exists r s1 signed s2 hash s3 tr s4,
    Stub.handle (GetSeq (sdk demo_helper) faucetAddress) demo_chain = (Ok r, s1) /\
    Stub.handle (Sign demo_tx faucetSecret 10 (or_number r 0)) s1 = (Ok signed, s2) /\
    Stub.handle (SendSignedTransaction (sdk demo_helper) signed) s2 = (Ok hash, s3) /\
    Stub.handle (Tracker demo_tx) s3 = (Ok tr, s4) /\
    out_trace (run Stub.handle (sendAssetTransaction demo_helper demo_tx None) demo_chain) =
      [GetSeq (sdk demo_helper) faucetAddress; Sign demo_tx faucetSecret 10 (or_number r 0);
       SendSignedTransaction (sdk demo_helper) signed; Tracker demo_tx;
       GetTransactionResultsByTracker (sdk demo_helper) tr (300 * 1000)] /\
    (forall flags s5,
       Stub.handle (GetTransactionResultsByTracker (sdk demo_helper) tr (300 * 1000)) s4 = (Ok flags, s5) ->
       out_result (run Stub.handle (sendAssetTransaction demo_helper demo_tx None) demo_chain) =
         Ok (Some flags)).
Proof.
  do 8 eexists. do 4 (split; [reflexivity|]).
  exact (sendAssetTransaction_defaults Stub.handle demo_helper demo_tx demo_chain
           _ _ _ _ _ _ _ _ eq_refl eq_refl eq_refl eq_refl).
Defined.

Lemma sendAssetTransaction_no_await_witness :
  exists r s0 signed s1 hash s2,
    AssetTransactionOptions.awaitResult (demo_options None (Some false) None) = Some false /\
    Stub.handle (GetSeq (sdk demo_helper) faucetAddress) demo_chain = (Ok r, s0) /\
    Stub.handle (Sign demo_tx faucetSecret 10 (or_number r 0)) s0 = (Ok signed, s1) /\
    Stub.handle (SendSignedTransaction (sdk demo_helper) signed) s1 = (Ok hash, s2) /\
    run Stub.handle (sendAssetTransaction demo_helper demo_tx
                       (Some (demo_options None (Some false) None))) demo_chain =
      Outcome (Ok None) s2 [GetSeq (sdk demo_helper) faucetAddress;
                            Sign demo_tx faucetSecret 10 (or_number r 0);
                            SendSignedTransaction (sdk demo_helper) signed].
Proof.
  do 6 eexists. split_and!; [reflexivity | reflexivity | reflexivity | reflexivity |].
  exact (sendAssetTransaction_no_await Stub.handle demo_helper demo_tx
           (demo_options None (Some false) None) _ demo_chain _ _ _ _ _
           eq_refl (ex_intro _ _ (conj eq_refl eq_refl)) eq_refl eq_refl).
Defined.

Lemma sendAssetTransaction_explicit_seq_witness :
  AssetTransactionOptions.seq (demo_options (Some 0%Z) None None) = Some 0%Z /\
  head (out_trace (run Stub.handle (sendAssetTransaction demo_helper demo_tx
                                      (Some (demo_options (Some 0%Z) None None))) demo_chain)) =
    Some (Sign demo_tx faucetSecret 10 0).
Proof.
  split; [reflexivity|].
  exact (sendAssetTransaction_explicit_seq Stub.handle demo_helper demo_tx
           (demo_options (Some 0%Z) None None) 0 demo_chain eq_refl).
Defined.

Lemma sendAssetTransaction_custom_secret_uses_faucet_seq_witness :
  exists r s1,
    AssetTransactionOptions.seq (demo_options None (Some false) (Some "my-secret")) = None /\
    AssetTransactionOptions.secret (demo_options None (Some false) (Some "my-secret")) = Some "my-secret" /\
    Stub.handle (GetSeq (sdk demo_helper) faucetAddress) demo_chain = (Ok r, s1) /\
    take 2 (out_trace (run Stub.handle (sendAssetTransaction demo_helper demo_tx
              (Some (demo_options None (Some false) (Some "my-secret")))) demo_chain)) =
      [GetSeq (sdk demo_helper) faucetAddress; Sign demo_tx "my-secret" 10 (or_number r 0)].
Proof.
  do 2 eexists. split_and!; [reflexivity | reflexivity | reflexivity |].
  exact (sendAssetTransaction_custom_secret_uses_faucet_seq Stub.handle demo_helper demo_tx
           (demo_options None (Some false) (Some "my-secret")) "my-secret" demo_chain _ _
           eq_refl eq_refl eq_refl).
Defined.

Lemma mintAsset_mint_request_witness :
  exists p s1 addr s2,
    MintAssetParams.recipient demo_mint = None /\
    Stub.handle (CreateP2PKH (sdk demo_helper) (keyStore demo_helper)) demo_chain = (Ok p, s1) /\
    Stub.handle (CreateAddress p) s1 = (Ok addr, s2) /\
    take 3 (out_trace (run Stub.handle (mintAsset demo_helper demo_mint) demo_chain)) =
      [CreateP2PKH (sdk demo_helper) (keyStore demo_helper); CreateAddress p;
       CreateMintAssetTransaction (sdk demo_helper)
         {| shardId := 0; metadata := EmptyString; supply := 100 |} addr].
Proof.
  do 4 eexists. split_and!; [reflexivity | reflexivity | reflexivity |].
  exact (mintAsset_mint_request Stub.handle demo_helper demo_mint demo_chain _ _ _ _
           eq_refl eq_refl eq_refl).
Defined.

Lemma mintAsset_errors_witness :
  out_result (run Stub.handle (mintAsset demo_helper demo_mint) demo_unregistered) =
    Err (JsError "Invalid signature") /\
  (JsError "Invalid signature" = JsError "Failed to mint asset" \/
   exists q s1 s2,
     last (out_trace (run Stub.handle (mintAsset demo_helper demo_mint) demo_unregistered)) = Some q /\
     Stub.handle q s1 = (Err (JsError "Invalid signature"), s2)).
Proof.
  split; [vm_compute; reflexivity|].
  apply (mintAsset_errors Stub.handle demo_helper demo_mint demo_unregistered).
  vm_compute. reflexivity.
Defined.

Lemma signTransactionInput_only_slot_witness :
  exists t,
    Stub.transfers demo_chain !! 0 = Some t /\
    out_result (run Stub.handle (signTransactionInput demo_helper 0 1) demo_chain) = Ok tt /\
    (forall ref', ref' <> 0 ->
       Stub.transfers (out_state (run Stub.handle (signTransactionInput demo_helper 0 1) demo_chain)) !! ref' =
       Stub.transfers demo_chain !! ref') /\
    exists t', Stub.transfers (out_state (run Stub.handle (signTransactionInput demo_helper 0 1) demo_chain)) !! 0 = Some t' /\
      length (Stub.inputs t') = length (Stub.inputs t) /\
      forall j, j <> Z.to_nat 1 -> Stub.inputs t' !! j = Stub.inputs t !! j.
Proof.
  eexists. split; [reflexivity|]. split; [reflexivity|].
  exact (signTransactionInput_only_slot demo_helper 0 1 demo_chain _ eq_refl eq_refl).
Defined.
