(* ===== verification/Scenarios.v ===== *)
(** * The spec's scenarios, run against the reference client

    Spec §8 lists the helper's testable behaviours "given a chain client
    stub".  This file runs the helper's methods of [Helper] against the
    stub client of [Stub], for every stub state that meets the scenario's
    preconditions.  The preconditions are that the faucet secret is
    registered and that the settlement delay is within or beyond the
    timeout.  The statements follow the spec's list: the timeout surfaces
    as a failure and not as a hang, a mint returns the asset with its
    supply and fresh recipient, a lost asset is the explicit mint failure,
    and a no-await submission broadcasts exactly once.  (The locality of
    [signTransactionInput] on this client is proved in [Helper].) *)
From stdpp Require Import base list strings gmap pretty.
From Stdlib Require Import ZArith.
From S2P Require Import Prelude Js Sdk Stub Helper.
Open Scope helper_scope.

Import Stub.

(** The faucet account signs for the default secret. *)
Definition faucet_registered (c : Chain) : Prop :=
  secrets c !! faucetSecret = Some faucetAddress.

(** The stub, except that its asset lookup never finds anything: the
    post-mint lookup of spec §8 "returns nothing". *)
Definition forgetful : handler Chain := fun q c =>
  match q as q' return result exn (response q') * Chain with
  | GetAsset _ _ _ _ => (Ok None, c)
  | q' => handle q' c
  end.

(** The default parameters of a mint of [supply]. *)
Definition mint_defaults (supply : Z) : MintAssetParams.t :=
  {| MintAssetParams.supply := supply; MintAssetParams.recipient := None;
     MintAssetParams.secret := None; MintAssetParams.seq := None;
     MintAssetParams.metadata := None |}.

Section Scenarios.
  Context (self : Helper).

  (** C5: when the chain does not settle the transaction within the
      300-second bound, sendAssetTransaction with the default options
      fails with the client's timeout error after the broadcast, and it
      does not hang. *)
Theorem sendAssetTransaction_timeout tx c :
    faucet_registered c -> (300000 < latency c)%Z ->
    out_result (run handle (sendAssetTransaction self tx None) c) = Err timeout_error.
  Proof.
    intros Hf Hl. unfold sendAssetTransaction. simpl.
    unfold broadcast. simpl. rewrite Hf, or_number_zero.
    rewrite decide_True by done. simpl. rewrite lookup_insert_eq.
    rewrite poll_timeout; [done|]. intros t fl [= <- <-].
    change (poll_fuel (300 * 1000)) with 300%nat. unfold poll_interval. lia.
  Qed.
  (** C4: minting with default metadata and no recipient, against a chain
      that settles within the 300-second bound, returns the asset of the
      mint: its supply is the requested one, it lives on shard 0 with
      empty metadata, and its recipient is the address freshly derived
      from the key store (the first key not yet used). *)
Theorem mintAsset_fresh_recipient c supply :
    faucet_registered c -> (0 <= latency c <= 300000)%Z ->
    exists a,
      out_result (run handle (mintAsset self (mint_defaults supply)) c) = Ok a /\
      asset_quantity a = supply /\ asset_shard a = 0%Z /\ asset_metadata a = EmptyString /\
      asset_recipient a =
        derive_address {| p2pkh_keyStore := keyStore self;
                          p2pkh_networkId := networkId (sdk self) |} (key_counter c).
  Proof.
    intros Hf Hl. unfold mintAsset, createP2PKHAddress, sendAssetTransaction. simpl.
    unfold broadcast. simpl. rewrite Hf, or_number_zero.
    rewrite decide_True by done. simpl. rewrite lookup_insert_eq.
    change (poll_fuel (300 * 1000)) with 300%nat.
    destruct (poll_observes 300 (clock c) (clock c + latency c) [true]) as (now & -> & ? & ?);
      [unfold poll_interval; lia|].
    simpl. unfold lookup_asset. simpl. rewrite !lookup_insert_eq. simpl.
    destruct (Z.leb_spec (clock c + latency c) now); [|lia]. simpl.
    eexists. split; [reflexivity|]. done.
  Qed.
  (** C6: when the mint is accepted and settles but the asset lookup
      returns nothing, mintAsset fails with the explicit error "Failed to
      mint asset" rather than returning a null asset. *)
Theorem mintAsset_lost_asset c supply :
    faucet_registered c -> (0 <= latency c <= 300000)%Z ->
    out_result (run forgetful (mintAsset self (mint_defaults supply)) c) =
      Err (JsError "Failed to mint asset").
  Proof.
    intros Hf Hl. unfold mintAsset, createP2PKHAddress, sendAssetTransaction. simpl.
    unfold broadcast. simpl. rewrite Hf, or_number_zero.
    rewrite decide_True by done. simpl. rewrite lookup_insert_eq.
    change (poll_fuel (300 * 1000)) with 300%nat.
    destruct (poll_observes 300 (clock c) (clock c + latency c) [true]) as (now & -> & ? & ?);
      [unfold poll_interval; lia|].
    done.
  Qed.

  (** C12: with awaitResult false, sendAssetTransaction resolves to
      undefined and the chain has received exactly one transaction: the
      input transaction signed by the faucet secret with fee 10 and the
      faucet's current sequence. *)
Theorem sendAssetTransaction_no_await_broadcasts_once tx c :
    faucet_registered c ->
    let o := {| AssetTransactionOptions.seq := None; AssetTransactionOptions.fee := None;
                AssetTransactionOptions.awaitResult := Some false;
                AssetTransactionOptions.secret := None |} in
    out_result (run handle (sendAssetTransaction self tx (Some o)) c) = Ok None /\
    pool (out_state (run handle (sendAssetTransaction self tx (Some o)) c)) =
      pool c ++ [{| signed_tx := tx; signed_fee := 10;
                    signed_seq := Some (with_default (seqs c !! faucetAddress) 0%Z);
                    signed_by := RawSecret faucetSecret |}].
  Proof.
    intros Hf. unfold sendAssetTransaction. simpl.
    unfold broadcast. simpl. rewrite Hf, or_number_zero.
    by rewrite decide_True.
  Qed.

End Scenarios.

(** ** Witnesses *)

(** The demo chain, with a settlement delay beyond the timeout. *)
Definition slow_chain : Chain := genesis faucetSecret faucetAddress demo_account 400000.

Lemma sendAssetTransaction_timeout_witness :
  faucet_registered slow_chain /\ (300000 < latency slow_chain)%Z /\
  out_result (run handle (sendAssetTransaction demo_helper demo_tx None) slow_chain) =
    Err timeout_error.
Proof.
  split; [reflexivity|]. split; [simpl; lia|].
  apply (sendAssetTransaction_timeout demo_helper demo_tx slow_chain); [reflexivity | simpl; lia].
Defined.

Lemma mintAsset_fresh_recipient_witness :
  faucet_registered demo_chain /\ (0 <= latency demo_chain <= 300000)%Z /\
  exists a,
    out_result (run handle (mintAsset demo_helper (mint_defaults 100)) demo_chain) = Ok a /\
    asset_quantity a = 100%Z /\ asset_shard a = 0%Z /\ asset_metadata a = EmptyString /\
    asset_recipient a =
      derive_address {| p2pkh_keyStore := keyStore demo_helper;
                        p2pkh_networkId := networkId (sdk demo_helper) |} (key_counter demo_chain).
Proof.
  split; [reflexivity|]. split; [simpl; lia|].
  apply (mintAsset_fresh_recipient demo_helper demo_chain 100); [reflexivity | simpl; lia].
Defined.

Lemma mintAsset_lost_asset_witness :
  faucet_registered demo_chain /\ (0 <= latency demo_chain <= 300000)%Z /\
  out_result (run forgetful (mintAsset demo_helper (mint_defaults 100)) demo_chain) =
    Err (JsError "Failed to mint asset").
Proof.
  split; [reflexivity|]. split; [simpl; lia|].
  apply (mintAsset_lost_asset demo_helper demo_chain 100); [reflexivity | simpl; lia].
Defined.

Lemma sendAssetTransaction_no_await_broadcasts_once_witness :
  faucet_registered demo_chain /\
  out_result (run handle (sendAssetTransaction demo_helper demo_tx
                            (Some (demo_options None (Some false) None))) demo_chain) = Ok None /\
  pool (out_state (run handle (sendAssetTransaction demo_helper demo_tx
                                 (Some (demo_options None (Some false) None))) demo_chain)) =
    pool demo_chain ++ [{| signed_tx := demo_tx; signed_fee := 10;
                           signed_seq := Some (with_default (seqs demo_chain !! faucetAddress) 0%Z);
                           signed_by := RawSecret faucetSecret |}].
Proof.
  split; [reflexivity|].
  exact (sendAssetTransaction_no_await_broadcasts_once demo_helper demo_tx demo_chain eq_refl).
Defined.

