(* ===== verification/Lifecycle.v ===== *)
(** * The life cycle of an asset transaction, and its refinement

    Spec §4.1 describes an implicit state machine for each submitted asset
    transaction: Built -> Signed -> Broadcast -> (Confirmed | TimedOut |
    Rejected).  Here it is a step relation [lc_step] labelled by the kind
    of SDK request that makes the step.  The sequence lookup keeps the
    transaction Built, and reading the tracker keeps it Broadcast.
    [lc_path] is the reflexive-transitive closure along a list of labels.

    Two groups of theorems follow.
    - Invariants by rule induction: along a path from Built there is at
      most one signature and one broadcast, and exactly one of each once
      Broadcast or Confirmed is reached.
    - Refinement: for every client and every start state, the requests
      issued by [sendAssetTransaction] trace a path of the machine from
      Built.  The method's result agrees with where the path ends: flags
      when Confirmed, undefined when Broadcast without awaiting, and an
      exception from whatever phase the failure occurred in.  The code
      raises the same kind of exception for a timeout as for a
      rejection.  Both are failures of the result poll, so the machine
      has no phase of its own for them: a failure is the exception of the
      run, in the phase it was reached.
    The two combine in C25: no run of [sendAssetTransaction], on any
    client, signs or broadcasts twice. *)
From stdpp Require Import base list.
From Stdlib Require Import ZArith.
From S2P Require Import Prelude Js Sdk Stub Helper.
Open Scope helper_scope.

Module Lifecycle.

Inductive phase : Type :=
| Built
| Signed
| Broadcast
| Confirmed.

#[export] Instance phase_eq_dec : EqDecision phase.
Proof. solve_decision. Defined.

Inductive lc_step : phase -> kind -> phase -> Prop :=
| step_seq : lc_step Built KGetSeq Built
| step_sign : lc_step Built KSign Signed
| step_send : lc_step Signed KSend Broadcast
| step_tracker : lc_step Broadcast KTracker Broadcast
| step_settle : lc_step Broadcast KGetResults Confirmed.

Inductive lc_path : phase -> list kind -> phase -> Prop :=
| path_nil p : lc_path p [] p
| path_cons p k p' l p'' : lc_step p k p' -> lc_path p' l p'' -> lc_path p (k :: l) p''.

#[export] Hint Constructors lc_step lc_path : helper.

(** What the method's result says about the phase the run ended in. *)
Definition outcome_matches (r : result exn (option (list bool))) (p : phase) : Prop :=
  match r with
  | Ok (Some _) => p = Confirmed
  | Ok None => p = Broadcast
  | Err _ => True
  end.

(** ** Paths *)

Lemma lc_path_app p l1 p' l2 p'' :
  lc_path p l1 p' -> lc_path p' l2 p'' -> lc_path p (l1 ++ l2) p''.
Proof. induction 1; simpl; eauto with helper. Qed.

Lemma lc_path_app_inv p l1 l2 p'' :
  lc_path p (l1 ++ l2) p'' -> exists p', lc_path p l1 p' /\ lc_path p' l2 p''.
Proof.
  revert p. induction l1 as [|k l1 IH]; simpl; intros p H; [eauto with helper|].
  inversion H as [|? ? p1 ? ? Hs Hp]; subst.
  destruct (IH p1 Hp) as (p' & ? & ?). eauto with helper.
Qed.

Lemma lc_path_prefix p l L p'' :
  l `prefix_of` L -> lc_path p L p'' -> exists p', lc_path p l p'.
Proof.
  intros [l' ->] H. destruct (lc_path_app_inv _ _ _ _ H) as (p' & ? & _). eauto.
Qed.

(** Steps never go back: the phases are ordered. *)
Definition rank (p : phase) : nat :=
  match p with Built => 0 | Signed => 1 | Broadcast => 2 | Confirmed => 3 end.

Lemma lc_step_rank p k p' : lc_step p k p' -> rank p <= rank p'.
Proof. destruct 1; simpl; lia. Qed.

Lemma lc_path_rank p l p' : lc_path p l p' -> rank p <= rank p'.
Proof. induction 1 as [|? ? ? ? ? Hs]; [done|]. apply lc_step_rank in Hs. lia. Qed.

(** ** Invariants, by rule induction *)

Definition count_kind (k : kind) (l : list kind) : nat :=
  count_where (fun k' => bool_decide (k' = k)) l.

(** Along any path, the number of broadcasts is the number of phase
    changes from Signed to Broadcast: 1 when the path crosses it, 0
    otherwise. *)
Lemma lc_path_sends p l p' :
  lc_path p l p' ->
  count_kind KSend l = if decide (rank p <= 1 < rank p') then 1 else 0.
Proof.
  unfold count_kind. induction 1 as [p|p k p1 l p2 Hs Hp IH]; [by rewrite decide_False by lia|].
  rewrite count_where_cons, IH.
  pose proof (lc_step_rank _ _ _ Hs). pose proof (lc_path_rank _ _ _ Hp).
  destruct Hs; simpl in *; repeat case_decide; simpl; lia.
Qed.
Lemma lc_path_signs p l p' :
  lc_path p l p' ->
  count_kind KSign l = if decide (rank p = 0 /\ 0 < rank p') then 1 else 0.
Proof.
  unfold count_kind. induction 1 as [p|p k p1 l p2 Hs Hp IH]; [by rewrite decide_False by lia|].
  rewrite count_where_cons, IH.
  pose proof (lc_step_rank _ _ _ Hs). pose proof (lc_path_rank _ _ _ Hp).
  destruct Hs; simpl in *; repeat case_decide; simpl; lia.
Qed.

(** From Built, any path signs and broadcasts at most once, and a path
    reaching Broadcast or Confirmed does each exactly once. *)
Lemma lc_path_counts l p :
  lc_path Built l p ->
  count_kind KSign l <= 1 /\ count_kind KSend l <= 1 /\
  (2 <= rank p -> count_kind KSign l = 1 /\ count_kind KSend l = 1).
Proof.
  intros H. rewrite (lc_path_signs _ _ _ H), (lc_path_sends _ _ _ H).
  simpl. repeat case_decide; lia.
Qed.

(** ** Refinement of [sendAssetTransaction] by the life cycle *)

Lemma asset_tx_kinds_path options :
  lc_path Built (asset_tx_kinds options)
    (if with_default (AssetTransactionOptions.awaitResult
                        (with_default options AssetTransactionOptions.empty)) true
     then Confirmed else Broadcast).
Proof.
  unfold asset_tx_kinds. apply (lc_path_app _ _ Built).
  - destruct (AssetTransactionOptions.seq _); eauto with helper.
  - destruct (with_default _ true); simpl; eauto 10 with helper.
Qed.

(** A normal return carries flags exactly when the result was awaited. *)
Lemma sendAssetTransaction_Ok_shape {S} (h : handler S) self tx options s v :
  out_result (run h (sendAssetTransaction self tx options) s) = Ok v ->
  if with_default (AssetTransactionOptions.awaitResult
                     (with_default options AssetTransactionOptions.empty)) true
  then exists flags, v = Some flags else v = None.
Proof.
  unfold sendAssetTransaction. rewrite run_bind.
  destruct (out_result (run h (await_default _ _) s)) as [seq|e]; simpl; [|discriminate].
  destruct (with_default _ true); simpl; repeat case_match; simpl; intros; simplify_eq; eauto.
Qed.

(** C7: refinement.  For every client and start state, the requests that
    sendAssetTransaction issues trace a path of the life cycle from Built,
    and its result agrees with where that path ends: per-output flags
    only once Confirmed, undefined only once Broadcast without awaiting,
    and otherwise an exception raised in the phase reached. *)
Theorem sendAssetTransaction_refines_lifecycle {S} (h : handler S) self tx options s :
  exists p,
    lc_path Built (map kind_of (out_trace (run h (sendAssetTransaction self tx options) s))) p /\
    outcome_matches (out_result (run h (sendAssetTransaction self tx options) s)) p.
Proof.
  destruct (asset_tx_protocol self tx options S h s) as [Hpre Hok].
  destruct (out_result (run h (sendAssetTransaction self tx options) s)) as [v|e] eqn:Er.
  - rewrite (Hok eq_refl). eexists. split; [apply asset_tx_kinds_path|].
    pose proof (sendAssetTransaction_Ok_shape h self tx options s v Er) as Hv.
    destruct (with_default _ true); [destruct Hv as [? ->] | subst]; done.
  - destruct (lc_path_prefix _ _ _ _ Hpre (asset_tx_kinds_path options)) as [p ?]. by exists p.
Qed.
(** C25: sendAssetTransaction never signs or broadcasts twice, on any
    client and whichever request fails: every run issues at most one
    signature and at most one broadcast, and a run that returns normally
    (awaited or not) issues exactly one of each.  The proof goes through
    the life cycle: the trace is a path from Built (the refinement), and
    the rule-induction invariants count the steps of such paths. *)
Theorem sendAssetTransaction_signs_and_broadcasts_once {S} (h : handler S) self tx options s :
  let tr := map kind_of (out_trace (run h (sendAssetTransaction self tx options) s)) in
  count_kind KSign tr <= 1 /\ count_kind KSend tr <= 1 /\
  (is_ok (out_result (run h (sendAssetTransaction self tx options) s)) = true ->
   count_kind KSign tr = 1 /\ count_kind KSend tr = 1).
Proof.
  cbv zeta. destruct (asset_tx_protocol self tx options S h s) as [Hpre Hok].
  destruct (lc_path_prefix _ _ _ _ Hpre (asset_tx_kinds_path options)) as [p Hp].
  destruct (lc_path_counts _ _ Hp) as (Hs & Hb & _). split_and!; [done | done |].
  destruct (out_result _) eqn:Er; [|done]. intros _. rewrite (Hok eq_refl).
  destruct (lc_path_counts _ _ (asset_tx_kinds_path options)) as (_ & _ & Hc).
  apply Hc. destruct (with_default _ true); simpl; lia.
Qed.

(** ** Witnesses *)

Lemma sendAssetTransaction_signs_and_broadcasts_once_witness :
  is_ok (out_result (run Stub.handle (sendAssetTransaction demo_helper demo_tx None) demo_chain)) = true /\
  count_kind KSign (map kind_of (out_trace (run Stub.handle (sendAssetTransaction demo_helper demo_tx None) demo_chain))) = 1 /\
  count_kind KSend (map kind_of (out_trace (run Stub.handle (sendAssetTransaction demo_helper demo_tx None) demo_chain))) = 1.
Proof.
  assert (Hok : is_ok (out_result (run Stub.handle (sendAssetTransaction demo_helper demo_tx None) demo_chain)) = true)
    by (vm_compute; reflexivity).
  split; [exact Hok|].
  exact (proj2 (proj2 (sendAssetTransaction_signs_and_broadcasts_once Stub.handle demo_helper demo_tx None demo_chain)) Hok).
Defined.

End Lifecycle.
